(** * Compass-Master server: content-generation client and capability store

    A shallow embedding of [apps/server/src/utils/llm.py] and
    [apps/server/src/database/repositories/capability_repository.py].

    A [str] is a [string] (a sequence of code points, here below 256),
    [None]-or-[str] is [option string], a [dict] with string keys is a
    [gmap string _] together with the identity of the object.  Code that mutates the
    client instance, logs, or talks to the outside world runs in a small
    state-and-exception monad: the state holds the instance attributes and
    the chronological trace of external effects, and a raised exception
    leaves the state as it was when it was raised, as in Python. *)

From Stdlib Require Import String Ascii List ZArith QArith Lia Bool.
From stdpp Require Import base option strings gmap list pretty.
Import ListNotations.
Local Open Scope string_scope.

(** ** Python preliminaries *)
Module Py.

(** Truthiness of [None | str]: [None] and the empty string are falsy. *)
Definition truthy (v : option string) : bool :=
  match v with
  | Some (String _ _) => true
  | Some EmptyString => false
  | None => false
  end.

(** [a or b] on [None | str]. *)
Definition or_ (a b : option string) : option string :=
  if truthy a then a else b.

(** An exception object: its class name, [str(e)], and the exception
    that was being handled when it was raised ([__context__]). *)
#[warnings="-register-all"] Inductive Exn : Type :=
  MkExn { exc_class : string; exc_msg : string; exc_context : option Exn }.

Definition str (e : Exn) : string := exc_msg e.

Definition ValueError (msg : string) : Exn := MkExn "ValueError" msg None.
(** [str(KeyError(key))] is the [repr] of the key. *)
Definition KeyError (key : string) : Exn :=
  MkExn "KeyError" ("'" +:+ key +:+ "'") None.
Definition IndexError (msg : string) : Exn := MkExn "IndexError" msg None.
Definition AttributeError (msg : string) : Exn := MkExn "AttributeError" msg None.

Inductive Result (A : Type) : Type :=
| Ok (a : A)
| Raise (e : Exn).
Arguments Ok {A} a.
Arguments Raise {A} e.

Definition is_ok {A} (r : Result A) : bool :=
  match r with Ok _ => true | Raise _ => false end.

(** State-and-exception monad over a state [S]. *)
Definition M (S A : Type) : Type := S -> Result A * S.

Definition ret {S A} (a : A) : M S A := fun s => (Ok a, s).

Definition bind {S A B} (c : M S A) (k : A -> M S B) : M S B :=
  fun s => match c s with
           | (Ok a, s') => k a s'
           | (Raise e, s') => (Raise e, s')
           end.

Definition raise {S A} (e : Exn) : M S A := fun s => (Raise e, s).

(** An external call whose outcome is already decided. *)
Definition lift {S A} (r : Result A) : M S A := fun s => (r, s).

(** [try: body / except Exception as e: handler e]. *)
Definition try_except {S A} (body : M S A) (handler : Exn -> M S A) : M S A :=
  fun s => match body s with
           | (Ok a, s') => (Ok a, s')
           | (Raise e, s') => handler e s'
           end.

(** [try: body / except cls as e: handler e]: other exceptions pass. *)
Definition try_except_of {S A} (cls : string) (body : M S A) (handler : Exn -> M S A)
  : M S A :=
  fun s => match body s with
           | (Ok a, s') => (Ok a, s')
           | (Raise e, s') =>
               if String.eqb (exc_class e) cls then handler e s' else (Raise e, s')
           end.

Definition gets {S A} (f : S -> A) : M S A := fun s => (Ok (f s), s).
Definition modify {S} (f : S -> S) : M S unit := fun s => (Ok tt, f s).

(** [if c: body] with no [else]. *)
Definition when {S} (c : bool) (body : M S unit) : M S unit :=
  if c then body else ret tt.

(** [for x in xs: body x]. *)
Fixpoint for_ {S A} (xs : list A) (body : A -> M S unit) : M S unit :=
  match xs with
  | [] => ret tt
  | x :: xs' => bind (body x) (fun _ => for_ xs' body)
  end.

(** [sep.join(xs)]. *)
Fixpoint join (sep : string) (xs : list string) : string :=
  match xs with
  | [] => ""
  | [x] => x
  | x :: xs' => x +:+ sep +:+ join sep xs'
  end.

(** [str.isspace] on a single code point below 256. *)
Definition isspace (c : ascii) : bool :=
  let n := nat_of_ascii c in
  (((9 <=? n) && (n <=? 13)) || ((28 <=? n) && (n <=? 32))
   || (n =? 133) || (n =? 160))%nat.

Fixpoint lstrip (s : string) : string :=
  match s with
  | String c s' => if isspace c then lstrip s' else s
  | EmptyString => EmptyString
  end.

(** Drops trailing whitespace: a whitespace character is kept only when
    something remains after stripping what follows it. *)
Fixpoint rstrip (s : string) : string :=
  match s with
  | String c s' =>
      match rstrip s' with
      | EmptyString => if isspace c then EmptyString else String c EmptyString
      | r => String c r
      end
  | EmptyString => EmptyString
  end.

(** [s.strip()]. *)
Definition strip (s : string) : string := rstrip (lstrip s).

(** [s[:n]]. *)
Definition prefix (n : nat) (s : string) : string := substring 0 n s.

(** *** [format(value, spec)] for a [str] value

    The standard format-specification parser of CPython 3.12
    ([parse_internal_render_format_spec]) followed by the string renderer
    ([format_string_internal]); every failure is a [ValueError]. *)

Definition is_alignment_token (c : ascii) : bool :=
  existsb (Ascii.eqb c) ["<"; ">"; "="; "^"]%char.

Definition is_sign_element (c : ascii) : bool :=
  existsb (Ascii.eqb c) [" "; "+"; "-"]%char.

Definition is_digit (c : ascii) : bool :=
  let n := nat_of_ascii c in ((48 <=? n) && (n <=? 57))%nat.

Inductive LocaleType := LT_NO_LOCALE | LT_DEFAULT_LOCALE | LT_UNDERSCORE_LOCALE.

Record InternalFormatSpec := {
  fill_char : ascii;
  align : ascii;
  alternate : bool;
  no_neg_0 : bool;
  sign : option ascii;
  width : option N;
  thousands_separators : LocaleType;
  precision : option N;
  type_ : ascii;
}.

Definition PY_SSIZE_T_MAX : N := 9223372036854775807.

(** [get_integer]: the leading decimal digits of [s]; [None] is the
    overflow error, otherwise the digits read (if any) and the rest. *)
Fixpoint get_integer (acc : option N) (s : string) : option (option N * string) :=
  match s with
  | String c s' =>
      if is_digit c then
        let d := N.of_nat (nat_of_ascii c - 48) in
        let a := (10 * default 0 acc + d)%N in
        if (PY_SSIZE_T_MAX <? a)%N then None else get_integer (Some a) s'
      else Some (acc, s)
  | EmptyString => Some (acc, s)
  end.

(** Consumes [c] from the front of [s] when it is there. *)
Definition eat (c : ascii) (s : string) : bool * string :=
  match s with
  | String c' s' => if Ascii.eqb c c' then (true, s') else (false, s)
  | EmptyString => (false, s)
  end.

Definition invalid_thousands_separator_type (t : LocaleType) (ty : ascii) : Exn :=
  ValueError ("Cannot specify '" +:+
              (match t with LT_UNDERSCORE_LOCALE => "_" | _ => "," end) +:+
              "' with '" +:+ String ty "" +:+ "'.").

Definition parse_internal_render_format_spec
    (tyname : string) (format_spec : string)
    (default_type default_align : ascii) : Result InternalFormatSpec :=
  (* fill and alignment *)
  let '(fill, fill_specified, al, align_specified, s1) :=
    match format_spec with
    | String f (String a r) =>
        if is_alignment_token a then (f, true, a, true, r)
        else if is_alignment_token f then (" "%char, false, f, true, String a r)
        else (" "%char, false, default_align, false, format_spec)
    | String a r =>
        if is_alignment_token a then (" "%char, false, a, true, r)
        else (" "%char, false, default_align, false, format_spec)
    | EmptyString => (" "%char, false, default_align, false, format_spec)
    end in
  (* sign *)
  let '(sg, s2) :=
    match s1 with
    | String c r => if is_sign_element c then (Some c, r) else (None, s1)
    | EmptyString => (None, s1)
    end in
  let '(z, s3) := eat "z" s2 in
  let '(alt, s4) := eat "#" s3 in
  (* the special case for 0-padding *)
  let '(fill, al, s5) :=
    if fill_specified then (fill, al, s4)
    else match eat "0" s4 with
         | (true, r) =>
             ("0"%char,
              if negb align_specified && Ascii.eqb default_align ">"
              then "="%char else al, r)
         | (false, r) => (fill, al, r)
         end in
  match get_integer None s5 with
  | None => Raise (ValueError "Too many decimal digits in format string")
  | Some (wd, s6) =>
      let '(comma, s7) := eat "," s6 in
      let th := if comma then LT_DEFAULT_LOCALE else LT_NO_LOCALE in
      let '(underscore, s8) := eat "_" s7 in
      if underscore && comma
      then Raise (ValueError "Cannot specify both ',' and '_'.")
      else
        let th := if underscore then LT_UNDERSCORE_LOCALE else th in
        if underscore && fst (eat "," s8)
        then Raise (ValueError "Cannot specify both ',' and '_'.")
        else
          let precision_part :=
            match eat "." s8 with
            | (true, r) =>
                match get_integer None r with
                | None => Raise (ValueError "Too many decimal digits in format string")
                | Some (None, _) => Raise (ValueError "Format specifier missing precision")
                | Some (Some p, r') => Ok (Some p, r')
                end
            | (false, r) => Ok (None, r)
            end in
          match precision_part with
          | Raise e => Raise e
          | Ok (prec, s9) =>
              match s9 with
              | String _ (String _ _) =>
                  (* more than one character remains *)
                  Raise (ValueError ("Invalid format specifier '" +:+ format_spec +:+
                                     "' for object of type '" +:+ tyname +:+ "'"))
              | _ =>
                  let ty := match s9 with String t _ => t | EmptyString => default_type end in
                  let spec := {| fill_char := fill; align := al; alternate := alt;
                                 no_neg_0 := z; sign := sg; width := wd;
                                 thousands_separators := th; precision := prec;
                                 type_ := ty |} in
                  match th with
                  | LT_NO_LOCALE => Ok spec
                  | _ =>
                      if existsb (Ascii.eqb ty) ["d"; "e"; "f"; "g"; "E"; "G"; "%"; "F"; "000"]%char
                      then Ok spec
                      else if existsb (Ascii.eqb ty) ["b"; "o"; "x"; "X"]%char
                              && match th with LT_UNDERSCORE_LOCALE => true | _ => false end
                      then Ok spec
                      else Raise (invalid_thousands_separator_type th ty)
                  end
              end
          end
  end.

Fixpoint repeat_char (c : ascii) (n : nat) : string :=
  match n with
  | O => EmptyString
  | Datatypes.S n' => String c (repeat_char c n')
  end.

Definition format_string_internal (value : string) (f : InternalFormatSpec) : Result string :=
  match sign f with
  | Some c =>
      if Ascii.eqb c " "
      then Raise (ValueError "Space not allowed in string format specifier")
      else Raise (ValueError "Sign not allowed in string format specifier")
  | None =>
      if no_neg_0 f
      then Raise (ValueError "Negative zero coercion (z) not allowed in string format specifier")
      else if alternate f
      then Raise (ValueError "Alternate form (#) not allowed in string format specifier")
      else if Ascii.eqb (align f) "="
      then Raise (ValueError "'=' alignment not allowed in string format specifier")
      else
        let len := String.length value in
        let len := match precision f with
                   | Some p => Nat.min len (N.to_nat p)
                   | None => len
                   end in
        let total := match width f with
                     | Some w => Nat.max len (N.to_nat w)
                     | None => len
                     end in
        let left :=
          if Ascii.eqb (align f) ">" then total - len
          else if Ascii.eqb (align f) "^" then (total - len) / 2
          else 0 in
        let right := total - len - left in
        Ok (repeat_char (fill_char f) left +:+ prefix len value +:+
            repeat_char (fill_char f) right)
  end.

(** [format(value, format_spec)] for [value : str]. *)
Definition format_str (value format_spec : string) : Result string :=
  match format_spec with
  | EmptyString => Ok value
  | _ =>
      match parse_internal_render_format_spec "str" format_spec "s" "<" with
      | Raise e => Raise e
      | Ok f =>
          if Ascii.eqb (type_ f) "s" then format_string_internal value f
          else Raise (ValueError ("Unknown format code '" +:+ String (type_ f) "" +:+
                                  "' for object of type 'str'"))
      end
  end.

(** *** Formatted string literals

    An f-string is a sequence of literal pieces and replacement fields
    [{expr:spec}], whose format specification is itself such a sequence.
    The fields here carry the value of [expr], a string. *)
#[warnings="-register-all"] Inductive FPart : Type :=
| FLit (s : string)
| FField (value : string) (spec : list FPart).

(** Evaluation goes left to right; a field evaluates its specification,
    innermost fields first, then formats its value with it. *)
Fixpoint eval_part (p : FPart) : Result string :=
  match p with
  | FLit s => Ok s
  | FField v spec =>
      let fix eval_parts (ps : list FPart) : Result string :=
        match ps with
        | [] => Ok ""
        | q :: ps' =>
            match eval_part q with
            | Raise e => Raise e
            | Ok s => match eval_parts ps' with
                      | Raise e => Raise e
                      | Ok r => Ok (s +:+ r)
                      end
            end
        end in
      match eval_parts spec with
      | Raise e => Raise e
      | Ok sp => format_str v sp
      end
  end.

Fixpoint eval_fstring (ps : list FPart) : Result string :=
  match ps with
  | [] => Ok ""
  | q :: ps' =>
      match eval_part q with
      | Raise e => Raise e
      | Ok s => match eval_fstring ps' with
                | Raise e => Raise e
                | Ok r => Ok (s +:+ r)
                end
      end
  end.

End Py.

Export Py.

Declare Scope py_scope.
Delimit Scope py_scope with py.
Notation "'let*' x ':=' c 'in' k" := (Py.bind c (fun x => k))
  (at level 10, x name, c at level 100, k at level 200) : py_scope.
Local Open Scope py_scope.

(** ** apps/server/src/utils/llm.py *)
Module Llm.

Definition nl : string := String "010" "".
Definition dq : string := String "034" "".
Definition cat (pieces : list string) : string := String.concat "" pieces.

(** Rendering of a [None | str] value inside an f-string. *)
Definition show (v : option string) : string :=
  match v with Some s => s | None => "None" end.

Inductive LogLevel := INFO | WARNING | ERROR.

(** A [dict] object with string keys and [None | str] values;
    [dict_oid] is the identity of the object, what [is] compares. *)
Record Dict := { dict_oid : nat; items : gmap string (option string) }.

(** The [AzureOpenAI] connection handle, bound to the three settings it
    was constructed with. *)
Record AzureOpenAI := {
  client_oid : nat;
  azure_endpoint : option string;
  api_key : option string;
  api_version : option string;
}.

Record ChatMessage := { role : string; content : string }.

Record ChatRequest := {
  model : option string;
  temperature : Q;
  max_tokens : Z;
  top_p : Q;
  frequency_penalty : Q;
  messages : list ChatMessage;
}.

(** The response of the chat-completion API, as far as the code reads
    it: [choices[i].message.content] for each choice. *)
Record ChatCompletion := { choices : list (option string) }.

(** A tokenizer returned by [tiktoken.encoding_for_model]. *)
Definition Encoding : Type := string -> Result (list nat).

(** The world outside the module.  [env] stands for [config.env.env],
    which is not part of the sources at hand: it is used only through
    [env.get(name)] and [env.get(name, default)], and is taken to be a
    mapping from variable names to strings.  The other fields give the
    outcome of each external call: a value or a raised [Exception]. *)
Record Externals := {
  env : gmap string string;
  DefaultAzureCredential : Result unit;
  SecretClient : string -> Result unit;
  get_secret : string -> Result (option string);
  chat_completions_create : AzureOpenAI -> ChatRequest -> Result ChatCompletion;
  encoding_for_model : string -> Result Encoding;
}.

(** External effects, in the order they happen. *)
Inductive Event :=
| Log (level : LogLevel) (msg : string)
| CallDefaultAzureCredential
| CallSecretClient (vault_url : string)
| CallGetSecret (name : string)
| CallAzureOpenAI (endpoint key version : option string)
| CallChatCompletionsCreate (request : ChatRequest)
| CallEncodingForModel (model_name : string).

(** Attributes of an [AzureOpenAIClient] instance. *)
Record AzureOpenAIClient := {
  key_vault_url : option string;
  _config : option Dict;
  _client : option AzureOpenAI;
}.

(** The instance, the trace of effects so far, and the next fresh
    object identity. *)
Record State := {
  self : AzureOpenAIClient;
  trace : list Event;
  next_oid : nat;
}.

Definition emit (e : Event) : M State unit :=
  modify (fun s => {| self := self s; trace := trace s ++ [e]; next_oid := next_oid s |}).

Definition logger (level : LogLevel) (msg : string) : M State unit :=
  emit (Log level msg).

(** An external call: recorded in the trace, then answered. *)
Definition call {A} (e : Event) (outcome : Result A) : M State A :=
  let* _ := emit e in lift outcome.

Definition fresh_oid : M State nat :=
  fun s => (Ok (next_oid s),
            {| self := self s; trace := trace s; next_oid := Datatypes.S (next_oid s) |}).

Definition new_dict (m : gmap string (option string)) : M State Dict :=
  let* o := fresh_oid in ret {| dict_oid := o; items := m |}.

Definition set_config (cfg : Dict) : M State unit :=
  modify (fun s => {| self := {| key_vault_url := key_vault_url (self s);
                                 _config := Some cfg;
                                 _client := _client (self s) |};
                      trace := trace s; next_oid := next_oid s |}).

Definition set_client (c : AzureOpenAI) : M State unit :=
  modify (fun s => {| self := {| key_vault_url := key_vault_url (self s);
                                 _config := _config (self s);
                                 _client := Some c |};
                      trace := trace s; next_oid := next_oid s |}).

(** [d[k] = v]. *)
Definition setitem (d : Dict) (k : string) (v : option string) : Dict :=
  {| dict_oid := dict_oid d; items := <[k := v]> (items d) |}.

(** [d.get(k)]: [None] when the key is absent. *)
Definition dict_get (d : Dict) (k : string) : option string :=
  default None (items d !! k).

(** [d[k]]: [KeyError] when the key is absent. *)
Definition getitem (d : Dict) (k : string) : Result (option string) :=
  match items d !! k with
  | Some v => Ok v
  | None => Raise (KeyError k)
  end.

(** [config[k]] where [config] may be [None]. *)
Definition opt_getitem (config : option Dict) (k : string) : Result (option string) :=
  match config with
  | Some d => getitem d k
  | None => Raise (MkExn "TypeError" "'NoneType' object is not subscriptable" None)
  end.

(** [env.get(name)] and [env.get(name, default)]. *)
Definition env_get (ext : Externals) (name : string) : option string :=
  env ext !! name.

Definition env_get_default (ext : Externals) (name default_ : string) : option string :=
  Some (default default_ (env ext !! name)).

(** [count_tokens(text, model="gpt-3.5-turbo")]. *)
Definition count_tokens (ext : Externals) (text : string) (model_name : string)
  : M State nat :=
  try_except
    (let* encoding := call (CallEncodingForModel model_name)
                           (encoding_for_model ext model_name) in
     let* tokens := lift (encoding text) in
     ret (length tokens))
    (fun e =>
       let* _ := logger WARNING ("Failed to count tokens with tiktoken: " +:+ str e) in
       (* Fallback: rough estimation (1 token = 4 characters) *)
       ret (String.length text / 4)).

Definition default_model : string := "gpt-3.5-turbo".

Definition default_key_vault_url : string := "https://KV-fs-to-autogen.vault.azure.net/".

(** [AzureOpenAIClient.__init__]. *)
Definition __init__ (ext : Externals) : AzureOpenAIClient :=
  {| key_vault_url := or_ (env_get ext "KEY_VAULT_URL") (Some default_key_vault_url);
     _config := None;
     _client := None |}.

(** The dict literal built from the four environment variables. *)
Definition env_config (ext : Externals) : gmap string (option string) :=
  <["deployment" := env_get ext "AZURE_OPENAI_DEPLOYMENT"]>
  (<["model_version" := env_get_default ext "AZURE_OPENAI_API_VERSION" "2024-02-01"]>
  (<["api_base" := env_get ext "AZURE_OPENAI_ENDPOINT"]>
  (<["api_key" := env_get ext "AZURE_OPENAI_API_KEY"]> ∅))).

(** One isolated fetch:
    [try: cfg[key] = client.get_secret(name).value]
    [except Exception: logger.warning(...); cfg[key] = None]. *)
Definition fetch_secret (ext : Externals) (cfg : Dict) (key name envvar : string)
  : M State Dict :=
  try_except
    (let* v := call (CallGetSecret name) (get_secret ext name) in
     ret (setitem cfg key v))
    (fun _ =>
       let* _ := logger WARNING
         (name +:+ " not found in Key Vault or access denied; will try environment variable "
               +:+ envvar) in
       ret (setitem cfg key None)).

(** [if self._config.get(key): logger.info(f"{label}{...}")]. *)
Definition log_if_set (cfg : Dict) (key : string) (render : string -> string)
  : M State unit :=
  match dict_get cfg key with
  | Some (String _ _ as v) => logger INFO (render v)
  | _ => ret tt
  end.

(** The four isolated fetches, in source order. *)
Definition fetch_secrets (ext : Externals) (cfg : Dict) : M State Dict :=
  let* cfg := fetch_secret ext cfg "api_key" "AzureLLMKey" "AZURE_OPENAI_API_KEY" in
  let* cfg := fetch_secret ext cfg "api_base" "AzureOpenAiBase" "AZURE_OPENAI_ENDPOINT" in
  let* cfg := fetch_secret ext cfg "model_version" "AzureOpenAiVersion" "AZURE_OPENAI_API_VERSION" in
  fetch_secret ext cfg "deployment" "AzureOpenAiDeployment" "AZURE_OPENAI_DEPLOYMENT".

(** [# Fill any missing values from environment variables]:
    [cfg[k] = cfg.get(k) or env.get(VAR)] for the four keys. *)
Definition fill_from_env (ext : Externals) (cfg : Dict) : Dict :=
  let cfg := setitem cfg "api_key"
               (or_ (dict_get cfg "api_key") (env_get ext "AZURE_OPENAI_API_KEY")) in
  let cfg := setitem cfg "api_base"
               (or_ (dict_get cfg "api_base") (env_get ext "AZURE_OPENAI_ENDPOINT")) in
  let cfg := setitem cfg "model_version"
               (or_ (dict_get cfg "model_version")
                    (env_get_default ext "AZURE_OPENAI_API_VERSION" "2024-02-01")) in
  setitem cfg "deployment"
    (or_ (dict_get cfg "deployment") (env_get ext "AZURE_OPENAI_DEPLOYMENT")).

(** The four [logger.info] lines that report the loaded configuration. *)
Definition log_loaded (cfg : Dict) : M State unit :=
  let* _ := log_if_set cfg "api_base"
              (fun v => "Loaded Azure OpenAI config - Base: " +:+ v) in
  let* _ := log_if_set cfg "model_version" (fun v => "Model version: " +:+ v) in
  let* _ := log_if_set cfg "deployment" (fun v => "Deployment: " +:+ v) in
  log_if_set cfg "api_key" (fun v => "API Key starts with: " +:+ prefix 5 v +:+ "...").

(** [self._config = {...}] built from the environment alone. *)
Definition use_environment (ext : Externals) : M State unit :=
  let* d := new_dict (env_config ext) in
  set_config d.

(** The location [kv_url] that [_load_config_from_vault] decides on. *)
Definition kv_url (ext : Externals) (s : State) : option string :=
  or_ (env_get ext "KEY_VAULT_URL") (key_vault_url (self s)).

(** [_load_config_from_vault]: returns [self._config]. *)
Definition _load_config_from_vault (ext : Externals) : M State (option Dict) :=
  let* cached := gets (fun s => _config (self s)) in
  let* _ :=
    match cached with
    | Some _ => ret tt
    | None =>
        let* url := gets (kv_url ext) in
        if negb (truthy url) then
          let* _ := logger INFO
            "No Key Vault URL configured; using environment variables for Azure OpenAI config" in
          use_environment ext
        else
          try_except
            (let* credential := call CallDefaultAzureCredential (DefaultAzureCredential ext) in
             let* client := call (CallSecretClient (show url)) (SecretClient ext (show url)) in
             let* cfg := new_dict ∅ in
             let* cfg := fetch_secrets ext cfg in
             let cfg := fill_from_env ext cfg in
             let* _ := set_config cfg in
             log_loaded cfg)
            (fun e =>
               let* _ := logger WARNING
                 ("Failed to access Azure Key Vault at " +:+ show url +:+ ": " +:+ str e
                  +:+ "; falling back to environment variables") in
               use_environment ext)
    end in
  gets (fun s => _config (self s)).

Definition required_fields : list string := ["api_key"; "api_base"; "deployment"].

(** [[k for k in ("api_key", "api_base", "deployment") if not config.get(k)]]. *)
Definition missing_fields (config : Dict) : list string :=
  List.filter (fun k => negb (truthy (dict_get config k))) required_fields.

(** The text of the error message after the [{}] placeholder. *)
Definition remediation_guidance : string :=
  ". " +:+
  "Provide these via environment variables (AZURE_OPENAI_API_KEY, AZURE_OPENAI_ENDPOINT, AZURE_OPENAI_DEPLOYMENT) " +:+
  "or configure them in Azure Key Vault and set KEY_VAULT_URL.".

(** ["Missing required Azure OpenAI config: {}. ...".format(", ".join(missing))]. *)
Definition missing_message (missing : list string) : string :=
  "Missing required Azure OpenAI config: " +:+ join ", " missing +:+ remediation_guidance.

(** [_get_client]: returns [self._client].  Constructing [AzureOpenAI]
    from three settings is taken not to fail. *)
Definition _get_client (ext : Externals) : M State (option AzureOpenAI) :=
  let* cached := gets (fun s => _client (self s)) in
  let* _ :=
    match cached with
    | Some _ => ret tt
    | None =>
        let* config := _load_config_from_vault ext in
        let* missing :=
          match config with
          | Some d => ret (missing_fields d)
          | None => raise (AttributeError "'NoneType' object has no attribute 'get'")
          end in
        match missing with
        | _ :: _ =>
            (* Provide detailed guidance to help operators fix environment *)
            raise (ValueError (missing_message missing))
        | [] =>
            let* endpoint := lift (opt_getitem config "api_base") in
            let* key := lift (opt_getitem config "api_key") in
            let* version := lift (opt_getitem config "model_version") in
            let* _ := emit (CallAzureOpenAI endpoint key version) in
            let* o := fresh_oid in
            set_client {| client_oid := o; azure_endpoint := endpoint;
                          api_key := key; api_version := version |}
        end
    end in
  gets (fun s => _client (self s)).

(** The returned dict of [generate_content]. *)
Record GenerationResult := {
  result_content : string;
  context_tokens : nat;
  response_tokens : nat;
  full_context : string;
}.

(** The "workspace content" block. *)
Fixpoint render_sections (i : nat) (sections : list string) (acc : string) : string :=
  match sections with
  | [] => acc
  | section :: rest =>
      render_sections (Datatypes.S i) rest
        (acc +:+ nl +:+ pretty i +:+ ". " +:+ section +:+ nl)
  end.

Definition workspace_content (context_sections : option (list string)) : string :=
  match context_sections with
  | Some ((_ :: _) as sections) =>
      render_sections 1 sections ("" +:+ nl +:+ "=== CONTENT SECTIONS ===" +:+ nl)
  | _ => ""
  end.

(** The f-string assigned to [system_prompt], read as Python 3.12 and
    later read it (earlier versions reject the literal, its fields being
    nested more than two deep): the braces of the JSON examples are not
    doubled, so each of them opens a replacement field, whose expression
    is the string literal that follows the brace and whose format
    specification is the text after the colon, up to the matching brace. *)
Definition system_prompt : list FPart := [
  FLit (cat [
    nl;
    "You are an Expert SME who answers user queries about organizational capabilities, processes, and subprocesses. "; nl;
    "Your task is to return responses in a structured "; dq; "process-definition manner"; dq; " based on the capability requested by the user. "; nl;
    "The user will provide a capability name (e.g., "; dq; "Program Design & Origination"; dq; "), and you must return the relevant core processes and subprocesses exactly in the defined style."; nl;
    nl;
    "### Rules:"; nl;
    "- Always respond with the capability name, followed by its core processes and subprocesses."; nl;
    "- Each core process must list its subprocesses and their aligned lifecycle phases."; nl;
    "- Do not invent new processes or phases. Only return what exists in the knowledge base."; nl;
    "- If the capability is not found, politely state: "; dq; "This capability is not defined in the current framework."; dq; nl;
    "- Keep the response concise, structured, and consistent with the examples."; nl;
    nl;
    "---"; nl;
    nl;
    "### Few-Shot Examples"; nl;
    nl;
    "#### Example 1"; nl;
    "**User Query:** Strategy & Resource Mobilization  "; nl;
    "**Assistant Response:**"; nl]);
  FField "Capability" [
    FLit (cat [
      " "; dq; "Strategy & Resource Mobilization"; dq; ","; nl;
      "  "; dq; "Core Processes"; dq; ": ["; nl;
      "    "]);
    FField "Core Process" [
      FLit (cat [
        " "; dq; "Portfolio Strategy Definition"; dq; ","; nl;
        "      "; dq; "Subprocesses"; dq; ": ["; nl;
        "        "]);
      FField "Subprocess" [
        FLit (cat [
          " "; dq; "Needs Assessment & Gap Analysis"; dq; ","; nl;
          "          "; dq; "Aligned Lifecycle Phase"; dq; ": "; dq; "Strategy, Diagnostics, and Pipeline"; dq; nl;
          "        "])
      ];
      FLit (cat [
        ","; nl;
        "        "]);
      FField "Subprocess" [
        FLit (cat [
          " "; dq; "Funding Instrument Selection"; dq; ","; nl;
          "          "; dq; "Aligned Lifecycle Phase"; dq; ": "; dq; "Strategy, Diagnostics, and Pipeline"; dq; nl;
          "        "])
      ];
      FLit (cat [
        nl;
        "      ]"; nl;
        "    "])
    ];
    FLit (cat [
      ","; nl;
      "    "]);
    FField "Core Process" [
      FLit (cat [
        " "; dq; "Donor & Fund Engagement"; dq; ","; nl;
        "      "; dq; "Subprocesses"; dq; ": ["; nl;
        "        "]);
      FField "Subprocess" [
        FLit (cat [
          " "; dq; "Proposal Preparation & Submission"; dq; ","; nl;
          "          "; dq; "Aligned Lifecycle Phase"; dq; ": "; dq; "Donor Engagement and Fundraising"; dq; nl;
          "        "])
      ];
      FLit (cat [
        ","; nl;
        "        "]);
      FField "Subprocess" [
        FLit (cat [
          " "; dq; "Grant Agreement Negotiation"; dq; ","; nl;
          "          "; dq; "Aligned Lifecycle Phase"; dq; ": "; dq; "Donor Engagement and Fundraising"; dq; nl;
          "        "])
      ];
      FLit (cat [
        ","; nl;
        "        "]);
      FField "Subprocess" [
        FLit (cat [
          " "; dq; "Donor Visibility Planning"; dq; ","; nl;
          "          "; dq; "Aligned Lifecycle Phase"; dq; ": "; dq; "Donor Engagement and Fundraising"; dq; nl;
          "        "])
      ];
      FLit (cat [
        nl;
        "      ]"; nl;
        "    "])
    ];
    FLit (cat [
      nl;
      "  ]"; nl])
  ];
  FLit (cat [
    nl;
    nl;
    "---"; nl;
    nl;
    "#### Example 2"; nl;
    "**User Query:** Program Execution & Financial Management  "; nl;
    "**Assistant Response:**"; nl]);
  FField "Capability" [
    FLit (cat [
      " "; dq; "Program Execution & Financial Management"; dq; ","; nl;
      "  "; dq; "Core Processes"; dq; ": ["; nl;
      "    "]);
    FField "Core Process" [
      FLit (cat [
        " "; dq; "Funds Disbursement"; dq; ","; nl;
        "      "; dq; "Subprocesses"; dq; ": ["; nl;
        "        "]);
      FField "Subprocess" [
        FLit (cat [
          " "; dq; "Milestone Verification & Approval"; dq; ","; nl;
          "          "; dq; "Aligned Lifecycle Phase"; dq; ": "; dq; "Disbursement and Financial Management"; dq; nl;
          "        "])
      ];
      FLit (cat [
        ","; nl;
        "        "]);
      FField "Subprocess" [
        FLit (cat [
          " "; dq; "Payment Processing (FM & Tax Handling)"; dq; ","; nl;
          "          "; dq; "Aligned Lifecycle Phase"; dq; ": "; dq; "Disbursement and Financial Management"; dq; nl;
          "        "])
      ];
      FLit (cat [
        ","; nl;
        "        "]);
      FField "Subprocess" [
        FLit (cat [
          " "; dq; "Financial Reporting & Controls"; dq; ","; nl;
          "          "; dq; "Aligned Lifecycle Phase"; dq; ": "; dq; "Disbursement and Financial Management"; dq; nl;
          "        "])
      ];
      FLit (cat [
        nl;
        "      ]"; nl;
        "    "])
    ];
    FLit (cat [
      ","; nl;
      "    "]);
    FField "Core Process" [
      FLit (cat [
        " "; dq; "Implementation Oversight"; dq; ","; nl;
        "      "; dq; "Subprocesses"; dq; ": ["; nl;
        "        "]);
      FField "Subprocess" [
        FLit (cat [
          " "; dq; "Technical Supervision & Monitoring"; dq; ","; nl;
          "          "; dq; "Aligned Lifecycle Phase"; dq; ": "; dq; "Implementation Supervision and Technical Oversight"; dq; nl;
          "        "])
      ];
      FLit (cat [
        ","; nl;
        "        "]);
      FField "Subprocess" [
        FLit (cat [
          " "; dq; "Consultant & Output Management"; dq; ","; nl;
          "          "; dq; "Aligned Lifecycle Phase"; dq; ": "; dq; "Implementation Supervision and Technical Oversight"; dq; nl;
          "        "])
      ];
      FLit (cat [
        ","; nl;
        "        "]);
      FField "Subprocess" [
        FLit (cat [
          " "; dq; "Change Request Handling"; dq; ","; nl;
          "          "; dq; "Aligned Lifecycle Phase"; dq; ": "; dq; "Implementation Supervision and Technical Oversight"; dq; nl;
          "        "])
      ];
      FLit (cat [
        nl;
        "      ]"; nl;
        "    "])
    ];
    FLit (cat [
      nl;
      "  ]"; nl])
  ];
  FLit (cat [
    nl;
    nl;
    "---"; nl;
    nl;
    "#### Example 3"; nl;
    "**User Query:** Performance & Assurance  "; nl;
    "**Assistant Response:**"; nl]);
  FField "Capability" [
    FLit (cat [
      " "; dq; "Performance & Assurance"; dq; ","; nl;
      "  "; dq; "Core Processes"; dq; ": ["; nl;
      "    "]);
    FField "Core Process" [
      FLit (cat [
        " "; dq; "Monitoring, Evaluation, and Learning (MEL)"; dq; ","; nl;
        "      "; dq; "Subprocesses"; dq; ": ["; nl;
        "        "]);
      FField "Subprocess" [
        FLit (cat [
          " "; dq; "KPI Collection & Evidence Verification"; dq; ","; nl;
          "          "; dq; "Aligned Lifecycle Phase"; dq; ": "; dq; "Monitoring, Evaluation, and Learning (MEL)"; dq; nl;
          "        "])
      ];
      FLit (cat [
        ","; nl;
        "        "]);
      FField "Subprocess" [
        FLit (cat [
          " "; dq; "Mid-term Completion Evaluation"; dq; ","; nl;
          "          "; dq; "Aligned Lifecycle Phase"; dq; ": "; dq; "Monitoring, Evaluation, and Learning (MEL)"; dq; nl;
          "        "])
      ];
      FLit (cat [
        ","; nl;
        "        "]);
      FField "Subprocess" [
        FLit (cat [
          " "; dq; "Lessons Learned Capture & Publication"; dq; ","; nl;
          "          "; dq; "Aligned Lifecycle Phase"; dq; ": "; dq; "Monitoring, Evaluation, and Learning (MEL)"; dq; nl;
          "        "])
      ];
      FLit (cat [
        nl;
        "      ]"; nl;
        "    "])
    ];
    FLit (cat [
      ","; nl;
      "    "]);
    FField "Core Process" [
      FLit (cat [
        " "; dq; "Audit & Compliance Management"; dq; ","; nl;
        "      "; dq; "Subprocesses"; dq; ": ["; nl;
        "        "]);
      FField "Subprocess" [
        FLit (cat [
          " "; dq; "External/Internal Audit Response"; dq; ","; nl;
          "          "; dq; "Aligned Lifecycle Phase"; dq; ": "; dq; "Audit, Compliance, and Visibility"; dq; nl;
          "        "])
      ];
      FLit (cat [
        ","; nl;
        "        "]);
      FField "Subprocess" [
        FLit (cat [
          " "; dq; "Regulatory Compliance (GDPR, Sanctions)"; dq; ","; nl;
          "          "; dq; "Aligned Lifecycle Phase"; dq; ": "; dq; "Audit, Compliance, and Visibility"; dq; nl;
          "        "])
      ];
      FLit (cat [
        ","; nl;
        "        "]);
      FField "Subprocess" [
        FLit (cat [
          " "; dq; "Donor Reporting & Visibility Assurance"; dq; ","; nl;
          "          "; dq; "Aligned Lifecycle Phase"; dq; ": "; dq; "Audit, Compliance, and Visibility"; dq; nl;
          "        "])
      ];
      FLit (cat [
        nl;
        "      ]"; nl;
        "    "])
    ];
    FLit (cat [
      ","; nl;
      "    "]);
    FField "Core Process" [
      FLit (cat [
        " "; dq; "Program Closure & Handoff"; dq; ","; nl;
        "      "; dq; "Subprocesses"; dq; ": ["; nl;
        "        "]);
      FField "Subprocess" [
        FLit (cat [
          " "; dq; "Financial Decommitment & Closure"; dq; ","; nl;
          "          "; dq; "Aligned Lifecycle Phase"; dq; ": "; dq; "Closure and Handover"; dq; nl;
          "        "])
      ];
      FLit (cat [
        ","; nl;
        "        "]);
      FField "Subprocess" [
        FLit (cat [
          " "; dq; "Document Archiving & Records Management"; dq; ","; nl;
          "          "; dq; "Aligned Lifecycle Phase"; dq; ": "; dq; "Closure and Handover"; dq; nl;
          "        "])
      ];
      FLit (cat [
        ","; nl;
        "        "]);
      FField "Subprocess" [
        FLit (cat [
          " "; dq; "Final Handoff & Close-out Letter Issuance"; dq; ","; nl;
          "          "; dq; "Aligned Lifecycle Phase"; dq; ": "; dq; "Closure and Handover"; dq; nl;
          "        "])
      ];
      FLit (cat [
        nl;
        "      ]"; nl;
        "    "])
    ];
    FLit (cat [
      nl;
      "  ]"; nl])
  ];
  FLit (cat [
    nl;
    nl;
    "---"; nl;
    nl;
    "### Final Instruction:"; nl;
    "Always return answers in this structured "; dq; "process-definition manner"; dq; " when the user provides a capability name."; nl])
].

(** [response.choices[0].message.content.strip()]. *)
Definition first_choice_text (response : ChatCompletion) : Result string :=
  match choices response with
  | [] => Raise (IndexError "list index out of range")
  | None :: _ => Raise (AttributeError "'NoneType' object has no attribute 'strip'")
  | Some text :: _ => Ok (strip text)
  end.

(** The body of [generate_content] from the API response on. *)
Definition finish_generation (ext : Externals) (system_prompt_text user_message : string)
    (workspace : string) (response : ChatCompletion) : M State GenerationResult :=
  let* generated_content := lift (first_choice_text response) in
  (* Calculate token counts *)
  let full := system_prompt_text +:+ nl +:+ user_message in
  let* ctx_tokens := count_tokens ext workspace default_model in
  let* resp_tokens := count_tokens ext generated_content default_model in
  let* _ := logger INFO ("Context tokens: " +:+ pretty ctx_tokens +:+
                         ", Response tokens: " +:+ pretty resp_tokens) in
  ret {| result_content := generated_content;
         context_tokens := ctx_tokens;
         response_tokens := resp_tokens;
         full_context := full |}.

(** The exception raised by the handler of [generate_content]; [e] is
    the exception being handled. *)
Definition generation_failed (e : Exn) : Exn :=
  MkExn "Exception" ("Content generation failed: " +:+ str e) (Some e).

(** The keyword arguments of [client.chat.completions.create]. *)
Definition chat_request (deployment : option string)
    (system_prompt_text user_message : string) : ChatRequest :=
  {| model := deployment;
     temperature := 0.2;
     max_tokens := 600;
     top_p := 0.9;
     frequency_penalty := 0.8;
     messages := [ {| role := "system"; content := system_prompt_text |};
                   {| role := "user"; content := user_message |} ] |}.

(** [generate_content], for an arbitrary system-prompt f-string. *)
Definition generate_content_with (template : list FPart) (ext : Externals)
    (prompt : string) (context_sections : option (list string))
  : M State GenerationResult :=
  try_except
    (let* config := _load_config_from_vault ext in
     let* client := _get_client ext in
     let workspace := workspace_content context_sections in
     let* system_prompt_text := lift (eval_fstring template) in
     let user_message := prompt in
     let* connection :=
       match client with
       | Some c => ret c
       | None => raise (AttributeError "'NoneType' object has no attribute 'chat'")
       end in
     let* deployment := lift (opt_getitem config "deployment") in
     let request := chat_request deployment system_prompt_text user_message in
     let* response := call (CallChatCompletionsCreate request)
                           (chat_completions_create ext connection request) in
     finish_generation ext system_prompt_text user_message workspace response)
    (fun e =>
       let* _ := logger ERROR ("Error generating content with Azure OpenAI: " +:+ str e) in
       raise (generation_failed e)).

(** [generate_content] as written. *)
Definition generate_content : Externals -> string -> option (list string)
                              -> M State GenerationResult :=
  generate_content_with system_prompt.

(** A freshly constructed client, as the module-level
    [azure_openai_client] is on import, before anything has happened. *)
Definition start (ext : Externals) : State :=
  {| self := __init__ ext; trace := []; next_oid := 0 |}.

End Llm.

(** ** apps/server/src/database/repositories/capability_repository.py *)
Module CapabilityRepository.

(** Modelled from the spec: the [Capability] model of [database.models]
    is not part of the sources at hand.  A record has an id, a name, a
    description, a soft-delete marker and the references of its
    associated processes; the table is the list of stored rows, the
    primary key is assigned on creation. *)
Record Capability := {
  id : Z;
  name : string;
  description : string;
  deleted_at : option Z;
  processes : list Z;
}.

Record Database := {
  rows : list Capability;
  next_id : Z;
}.

Definition live (c : Capability) : bool :=
  match deleted_at c with None => true | Some _ => false end.

Definition has_id (capability_id : Z) (c : Capability) : bool :=
  (id c =? capability_id)%Z.

(** [Capability.create(name=..., description=...)]. *)
Definition Capability_create (name_ description_ : string) : M Database Capability :=
  fun db =>
    let cap := {| id := next_id db; name := name_; description := description_;
                  deleted_at := None; processes := [] |} in
    (Ok cap, {| rows := rows db ++ [cap]; next_id := (next_id db + 1)%Z |}).

(** [Capability.get(id=capability_id, deleted_at=None)]. *)
Definition Capability_get (capability_id : Z) : M Database Capability :=
  fun db =>
    match List.filter (fun c => has_id capability_id c && live c) (rows db) with
    | [] => (Raise (MkExn "DoesNotExist" "Object does not exist" None), db)
    | [c] => (Ok c, db)
    | _ => (Raise (MkExn "MultipleObjectsReturned"
                     "Multiple objects returned, expected exactly one" None), db)
    end.

(** [obj.save()]: writes the record back under its primary key. *)
Definition save (obj : Capability) : M Database unit :=
  modify (fun db =>
    {| rows := List.map (fun c => if has_id (id obj) c then obj else c) (rows db);
       next_id := next_id db |}).

(** [Capability.filter(id=capability_id).delete()]: removes the matching
    rows from the table and returns how many there were. *)
Definition filter_delete (capability_id : Z) : M Database nat :=
  fun db =>
    (Ok (length (List.filter (has_id capability_id) (rows db))),
     {| rows := List.filter (fun c => negb (has_id capability_id c)) (rows db);
        next_id := next_id db |}).

Definition create_capability (name_ description_ : string) : M Database Capability :=
  let* cap := Capability_create name_ description_ in
  ret cap.

(** [Capability.filter(deleted_at=None).prefetch_related('processes').all()]. *)
Definition fetch_all_capabilities : M Database (list Capability) :=
  gets (fun db => List.filter live (rows db)).

Definition fetch_by_id (capability_id : Z) : M Database (option Capability) :=
  try_except_of "DoesNotExist"
    (let* c := Capability_get capability_id in ret (Some c))
    (fun _ => ret None).

Definition update_capability (capability_id : Z)
    (name_ description_ : option string) : M Database (option Capability) :=
  let* obj := fetch_by_id capability_id in
  match obj with
  | None => ret None
  | Some obj =>
      let obj := match name_ with
                 | Some n => {| id := id obj; name := n; description := description obj;
                                deleted_at := deleted_at obj; processes := processes obj |}
                 | None => obj
                 end in
      let obj := match description_ with
                 | Some d => {| id := id obj; name := name obj; description := d;
                                deleted_at := deleted_at obj; processes := processes obj |}
                 | None => obj
                 end in
      let* _ := save obj in
      ret (Some obj)
  end.

Definition delete_capability (capability_id : Z) : M Database bool :=
  let* deleted := filter_delete capability_id in
  ret (0 <? deleted)%nat.

End CapabilityRepository.

(** ** Concrete worlds used in examples *)
Module Worlds.
Import Llm.

(** A tokenizer with one token per character. *)
Definition char_encoding : Encoding :=
  fun text => Ok (List.map nat_of_ascii (list_ascii_of_string text)).

(** The environment of the end-to-end scenarios: key, endpoint and
    deployment set, no secret-store location, no API version. *)
Definition scenario_env : gmap string string :=
  <["AZURE_OPENAI_DEPLOYMENT" := "gpt-4"]>
  (<["AZURE_OPENAI_ENDPOINT" := "https://x"]>
  (<["AZURE_OPENAI_API_KEY" := "k"]> ∅)).

(** The same without a deployment. *)
Definition no_deployment_env : gmap string string :=
  <["AZURE_OPENAI_ENDPOINT" := "https://x"]>
  (<["AZURE_OPENAI_API_KEY" := "k"]> ∅).

Definition unavailable : Exn :=
  MkExn "CredentialUnavailableError" "no credential available" None.

Definition not_found : Exn :=
  MkExn "ResourceNotFoundError" "secret not found" None.

(** A world whose secret store cannot be reached and whose chat API
    answers every request with the text [reply]. *)
Definition offline (e : gmap string string) (reply : string) : Externals :=
  {| env := e;
     DefaultAzureCredential := Raise unavailable;
     SecretClient := fun _ => Ok tt;
     get_secret := fun _ => Raise not_found;
     chat_completions_create := fun _ _ => Ok {| choices := [Some reply] |};
     encoding_for_model := fun _ => Ok char_encoding |}.

(** A world whose secret store opens and answers fetches with [secrets]. *)
Definition online (e : gmap string string)
    (secrets : string -> Result (option string)) : Externals :=
  {| env := e;
     DefaultAzureCredential := Ok tt;
     SecretClient := fun _ => Ok tt;
     get_secret := secrets;
     chat_completions_create := fun _ _ => Ok {| choices := [Some "X"] |};
     encoding_for_model := fun _ => Raise (KeyError "no tokenizer") |}.

(** A store in which the key cannot be fetched, the endpoint is stored
    as the empty string, and the other two secrets have values. *)
Definition one_missing_one_empty (name : string) : Result (option string) :=
  if String.eqb name "AzureLLMKey" then Raise not_found
  else if String.eqb name "AzureOpenAiBase" then Ok (Some "")
  else if String.eqb name "AzureOpenAiVersion" then Ok (Some "2023-05-15")
  else Ok (Some "gpt-35").

(** A store that holds a value for each of the four secrets. *)
Definition all_stored (name : string) : Result (option string) :=
  if String.eqb name "AzureLLMKey" then Ok (Some "vault-key")
  else if String.eqb name "AzureOpenAiBase" then Ok (Some "https://vault")
  else if String.eqb name "AzureOpenAiVersion" then Ok (Some "2023-05-15")
  else Ok (Some "gpt-35").

(** A client whose stored location has been cleared. *)
Definition without_location : State :=
  {| self := {| key_vault_url := None; _config := None; _client := None |};
     trace := []; next_oid := 0 |}.

End Worlds.

(** ** Observations on the content-generation client

    Functions that read off a world or a state what the statements below
    speak about: outcomes of external calls, kinds of events, the bundles and
    states that resolution produces. *)
Module LlmObs.
Import Llm Worlds.

(** The outcome of exact tokenization of [text] for [model_name]. *)
Definition tokenize (ext : Externals) (model_name text : string) : Result (list nat) :=
  match encoding_for_model ext model_name with
  | Ok encoding => encoding text
  | Raise e => Raise e
  end.

(** The outcome of opening the secret-store session at [url]. *)
Definition session (ext : Externals) (url : string) : Result unit :=
  match DefaultAzureCredential ext with
  | Ok _ => SecretClient ext url
  | Raise e => Raise e
  end.

(** What a fetch leaves in the bundle: the secret's value, or [None]
    when the fetch raised. *)
Definition fetched (ext : Externals) (name : string) : option string :=
  match get_secret ext name with
  | Ok v => v
  | Raise _ => None
  end.

Definition is_store_event (e : Event) : bool :=
  match e with
  | CallDefaultAzureCredential | CallSecretClient _ | CallGetSecret _ => true
  | _ => false
  end.

Definition is_secret_client_call (e : Event) : bool :=
  match e with CallSecretClient _ => true | _ => false end.

Definition is_fetch (e : Event) : bool :=
  match e with CallGetSecret _ => true | _ => false end.

Definition is_api_call (e : Event) : bool :=
  match e with CallChatCompletionsCreate _ => true | _ => false end.

Definition count (p : Event -> bool) (t : list Event) : nat :=
  length (List.filter p t).

(** [needle in text]. *)
Definition mentions (text needle : string) : bool :=
  match index 0 needle text with Some _ => true | None => false end.

(** The state after some more events. *)
Definition after (s : State) (evs : list Event) : State :=
  {| self := self s; trace := trace s ++ evs; next_oid := next_oid s |}.

Definition with_config (d : Dict) (s : State) (evs : list Event) : State :=
  {| self := {| key_vault_url := key_vault_url (self s);
                _config := Some d;
                _client := _client (self s) |};
     trace := trace s ++ evs;
     next_oid := Datatypes.S (next_oid s) |}.

(** The bundle built from the environment alone, as a fresh object. *)
Definition env_bundle (ext : Externals) (s : State) : Dict :=
  {| dict_oid := next_oid s; items := env_config ext |}.

(** The dict after the four fetches. *)
Definition fetched_bundle (ext : Externals) (s : State) : Dict :=
  setitem (setitem (setitem (setitem {| dict_oid := next_oid s; items := ∅ |}
    "api_key" (fetched ext "AzureLLMKey"))
    "api_base" (fetched ext "AzureOpenAiBase"))
    "model_version" (fetched ext "AzureOpenAiVersion"))
    "deployment" (fetched ext "AzureOpenAiDeployment").

Definition vault_bundle (ext : Externals) (s : State) : Dict :=
  fill_from_env ext (fetched_bundle ext s).

Definition session_events (ext : Externals) (url : string) : list Event :=
  match DefaultAzureCredential ext with
  | Ok _ => [CallDefaultAzureCredential; CallSecretClient url]
  | Raise _ => [CallDefaultAzureCredential]
  end.

Definition fetch_events (ext : Externals) (name envvar : string) : list Event :=
  CallGetSecret name ::
  match get_secret ext name with
  | Ok _ => []
  | Raise _ =>
      [Log WARNING (name +:+ " not found in Key Vault or access denied; will try environment variable "
                         +:+ envvar)]
  end.

Definition log_if_set_events (cfg : Dict) (key : string) (render : string -> string)
  : list Event :=
  match dict_get cfg key with
  | Some (String _ _ as v) => [Log INFO (render v)]
  | _ => []
  end.

Definition loaded_events (cfg : Dict) : list Event :=
  log_if_set_events cfg "api_base" (fun v => "Loaded Azure OpenAI config - Base: " +:+ v) ++
  log_if_set_events cfg "model_version" (fun v => "Model version: " +:+ v) ++
  log_if_set_events cfg "deployment" (fun v => "Deployment: " +:+ v) ++
  log_if_set_events cfg "api_key" (fun v => "API Key starts with: " +:+ prefix 5 v +:+ "...").

Definition vault_events (ext : Externals) (url : string) (cfg : Dict) : list Event :=
  [CallDefaultAzureCredential; CallSecretClient url] ++
  fetch_events ext "AzureLLMKey" "AZURE_OPENAI_API_KEY" ++
  fetch_events ext "AzureOpenAiBase" "AZURE_OPENAI_ENDPOINT" ++
  fetch_events ext "AzureOpenAiVersion" "AZURE_OPENAI_API_VERSION" ++
  fetch_events ext "AzureOpenAiDeployment" "AZURE_OPENAI_DEPLOYMENT" ++
  loaded_events cfg.

(** The four configuration fields with their bundle key, secret name
    and environment value. *)
Inductive Field := ApiKey | ApiBase | ModelVersion | Deployment.

Definition key (f : Field) : string :=
  match f with
  | ApiKey => "api_key" | ApiBase => "api_base"
  | ModelVersion => "model_version" | Deployment => "deployment"
  end.

Definition secret (f : Field) : string :=
  match f with
  | ApiKey => "AzureLLMKey" | ApiBase => "AzureOpenAiBase"
  | ModelVersion => "AzureOpenAiVersion" | Deployment => "AzureOpenAiDeployment"
  end.

Definition from_env (ext : Externals) (f : Field) : option string :=
  match f with
  | ApiKey => env_get ext "AZURE_OPENAI_API_KEY"
  | ApiBase => env_get ext "AZURE_OPENAI_ENDPOINT"
  | ModelVersion => env_get_default ext "AZURE_OPENAI_API_VERSION" "2024-02-01"
  | Deployment => env_get ext "AZURE_OPENAI_DEPLOYMENT"
  end.

(** The bundle [_load_config_from_vault] settles on, its events and the
    state it leaves. *)
Definition resolve_bundle (ext : Externals) (s : State) : Dict :=
  match _config (self s) with
  | Some d => d
  | None =>
      if truthy (kv_url ext s) then
        match session ext (show (kv_url ext s)) with
        | Ok _ => vault_bundle ext s
        | Raise _ => env_bundle ext s
        end
      else env_bundle ext s
  end.

Definition load_events (ext : Externals) (s : State) : list Event :=
  match _config (self s) with
  | Some d => []
  | None =>
      if truthy (kv_url ext s) then
        match session ext (show (kv_url ext s)) with
        | Ok _ => vault_events ext (show (kv_url ext s)) (vault_bundle ext s)
        | Raise e =>
            (session_events ext (show (kv_url ext s)) ++
             [Log WARNING ("Failed to access Azure Key Vault at " +:+ show (kv_url ext s)
                           +:+ ": " +:+ str e +:+ "; falling back to environment variables")])%list
        end
      else [Log INFO "No Key Vault URL configured; using environment variables for Azure OpenAI config"]
  end.

Definition loaded_state (ext : Externals) (s : State) : State :=
  match _config (self s) with
  | Some _ => s
  | None => with_config (resolve_bundle ext s) s (load_events ext s)
  end.

(** A bundle holds all four keys. *)
Definition has_keys (d : Dict) : Prop := forall f, is_Some (items d !! key f).

(** The connection built from bundle [d] in state [s]. *)
Definition connection (d : Dict) (s : State) : AzureOpenAI :=
  {| client_oid := next_oid s;
     azure_endpoint := dict_get d "api_base";
     api_key := dict_get d "api_key";
     api_version := dict_get d "model_version" |}.

Definition with_client (c : AzureOpenAI) (s : State) (evs : list Event) : State :=
  {| self := {| key_vault_url := key_vault_url (self s);
                _config := _config (self s);
                _client := Some c |};
     trace := trace s ++ evs;
     next_oid := Datatypes.S (next_oid s) |}.

Definition connected_state (ext : Externals) (s : State) : State :=
  let d := resolve_bundle ext s in
  let s1 := loaded_state ext s in
  with_client (connection d s1) s1
    [CallAzureOpenAI (dict_get d "api_base") (dict_get d "api_key")
                     (dict_get d "model_version")].

(** What [count_tokens] returns for [text] with the default model. *)
Definition token_count (ext : Externals) (text : string) : nat :=
  match tokenize ext default_model text with
  | Ok tokens => length tokens
  | Raise _ => String.length text / 4
  end.

Definition count_tokens_events (ext : Externals) (text : string) : list Event :=
  CallEncodingForModel default_model ::
  match tokenize ext default_model text with
  | Ok _ => []
  | Raise e => [Log WARNING ("Failed to count tokens with tiktoken: " +:+ str e)]
  end.

(** The result dict built from a response text. *)
Definition generation_result (ext : Externals) (system_prompt_text user_message : string)
    (workspace generated_content : string) : GenerationResult :=
  {| result_content := generated_content;
     context_tokens := token_count ext workspace;
     response_tokens := token_count ext generated_content;
     full_context := system_prompt_text +:+ nl +:+ user_message |}.

Definition finish_events (ext : Externals) (workspace generated_content : string)
  : list Event :=
  (count_tokens_events ext workspace ++ count_tokens_events ext generated_content ++
   [Log INFO ("Context tokens: " +:+ pretty (token_count ext workspace) +:+
              ", Response tokens: " +:+ pretty (token_count ext generated_content))])%list.

(** The outcome of the handler of [generate_content] for exception [e]. *)
Definition failed (e : Exn) (s : State) : Result GenerationResult * State :=
  (Raise (generation_failed e),
   after s [Log ERROR ("Error generating content with Azure OpenAI: " +:+ str e)]).

(** The connection [c] is bound to the settings of bundle [d]. *)
Definition bound (c : AzureOpenAI) (d : Dict) : Prop :=
  azure_endpoint c = dict_get d "api_base" /\
  api_key c = dict_get d "api_key" /\
  api_version c = dict_get d "model_version".

(** A cached bundle holds the four keys, and a cached connection was
    built from a cached, complete bundle. *)
Definition state_inv (s : State) : Prop :=
  (forall d, _config (self s) = Some d -> has_keys d) /\
  (forall c, _client (self s) = Some c ->
             exists d, _config (self s) = Some d /\ missing_fields d = [] /\ bound c d).

(** What [_get_client] does once the bundle [config] is at hand. *)
Definition validate_and_connect (config : Dict) : M State (option AzureOpenAI) :=
  let* _ :=
    match missing_fields config with
    | _ :: _ => raise (ValueError (missing_message (missing_fields config)))
    | [] =>
        let* endpoint := lift (getitem config "api_base") in
        let* key_ := lift (getitem config "api_key") in
        let* version := lift (getitem config "model_version") in
        let* _ := emit (CallAzureOpenAI endpoint key_ version) in
        let* o := fresh_oid in
        set_client {| client_oid := o; azure_endpoint := endpoint;
                      api_key := key_; api_version := version |}
    end in
  gets (fun s => _client (self s)).

(** The exception raised by the first replacement field of the system
    prompt that gets formatted. *)
Definition bad_format_specifier : Exn :=
  ValueError (cat [
    "Invalid format specifier ' "; dq; "Needs Assessment & Gap Analysis"; dq; ","; nl;
    "          "; dq; "Aligned Lifecycle Phase"; dq; ": "; dq;
    "Strategy, Diagnostics, and Pipeline"; dq; nl;
    "        ' for object of type 'str'"]).

(** The numbered blocks of the sections, the first one numbered [i]. *)
Fixpoint numbered (i : nat) (sections : list string) : string :=
  match sections with
  | [] => ""
  | section :: rest =>
      (nl +:+ pretty i +:+ ". " +:+ section +:+ nl) +:+ numbered (Datatypes.S i) rest
  end.

(** The first and the last character of a string. *)
Definition first_char (s : string) : option ascii :=
  match s with String c _ => Some c | EmptyString => None end.

Fixpoint last_char (s : string) : option ascii :=
  match s with
  | EmptyString => None
  | String c EmptyString => Some c
  | String _ s' => last_char s'
  end.

End LlmObs.

(** ** Observations on the capability store *)
Module CapabilityRepositoryObs.
Import CapabilityRepository.

(** A store holding one live capability. *)
Definition strategy : Capability :=
  {| id := 1; name := "Strategy & Resource Mobilization";
     description := "Mobilizing resources"; deleted_at := None; processes := [7; 8]%Z |}.

Definition one_capability : Database := {| rows := [strategy]; next_id := 2 |}.

(** The primary keys, in storage order. *)
Definition ids (db : Database) : list Z := List.map id (rows db).

(** Primary keys are unique, and all of them were assigned before
    [next_id]. *)
Definition well_keyed (db : Database) : Prop :=
  NoDup (ids db) /\ Forall (fun i => (i < next_id db)%Z) (ids db).

(** The first live row with the given id, if any. *)
Definition live_row (capability_id : Z) (db : Database) : option Capability :=
  List.find (fun c => has_id capability_id c && live c) (rows db).

(** [obj] after the two conditional assignments of [update_capability]. *)
Definition updated (obj : Capability) (name_ description_ : option string) : Capability :=
  {| id := id obj;
     name := default (name obj) name_;
     description := default (description obj) description_;
     deleted_at := deleted_at obj;
     processes := processes obj |}.

(** A capability that carries the soft-delete marker. *)
Definition archived : Capability :=
  {| id := 2; name := "Performance & Assurance"; description := "Monitoring";
     deleted_at := Some 1700000000%Z; processes := [9]%Z |}.

Definition two_capabilities : Database :=
  {| rows := [strategy; archived]; next_id := 3 |}.

End CapabilityRepositoryObs.

(** ** Properties of the content-generation client *)
Module LlmProps.
Import Llm Worlds LlmObs.

(** *** Concrete runs *)

Example strip_example : strip (" " +:+ nl +:+ " X y " +:+ nl) = "X y".
Proof. reflexivity. Qed.

Example workspace_content_empty :
  workspace_content None = "" /\ workspace_content (Some []) = "".
Proof. by split. Qed.

Example workspace_content_two :
  workspace_content (Some ["alpha"; "beta"]) =
  cat [nl; "=== CONTENT SECTIONS ==="; nl; nl; "1. alpha"; nl; nl; "2. beta"; nl].
Proof. by vm_compute. Qed.

Example format_str_pads : format_str "ab" "*>6" = Ok "****ab".
Proof. reflexivity. Qed.

Example format_str_rejects_space :
  format_str "ab" " " = Raise (ValueError "Space not allowed in string format specifier").
Proof. reflexivity. Qed.

Example missing_message_deployment :
  missing_message ["api_key"; "deployment"] =
  "Missing required Azure OpenAI config: api_key, deployment. Provide these via environment variables (AZURE_OPENAI_API_KEY, AZURE_OPENAI_ENDPOINT, AZURE_OPENAI_DEPLOYMENT) or configure them in Azure Key Vault and set KEY_VAULT_URL.".
Proof. reflexivity. Qed.

(** Resolution against a store that holds all four secrets. *)
Example load_all_stored :
  let w := online scenario_env all_stored in
  trace (snd (_load_config_from_vault w (start w))) =
  [CallDefaultAzureCredential;
   CallSecretClient "https://KV-fs-to-autogen.vault.azure.net/";
   CallGetSecret "AzureLLMKey"; CallGetSecret "AzureOpenAiBase";
   CallGetSecret "AzureOpenAiVersion"; CallGetSecret "AzureOpenAiDeployment";
   Log INFO "Loaded Azure OpenAI config - Base: https://vault";
   Log INFO "Model version: 2023-05-15";
   Log INFO "Deployment: gpt-35";
   Log INFO "API Key starts with: vault..."].
Proof. by vm_compute. Qed.

(** Resolution when the store cannot be reached. *)
Example load_offline :
  let w := offline scenario_env "X" in
  trace (snd (_load_config_from_vault w (start w))) =
  [CallDefaultAzureCredential;
   Log WARNING "Failed to access Azure Key Vault at https://KV-fs-to-autogen.vault.azure.net/: no credential available; falling back to environment variables"].
Proof. by vm_compute. Qed.

(** A generation with a system prompt free of replacement fields. *)
Example generate_with_plain_prompt :
  let w := offline scenario_env (" X " +:+ nl) in
  fst (generate_content_with [FLit "SYS"] w "Q" (Some ["a"]) (start w)) =
  Ok {| result_content := "X"; context_tokens := 32; response_tokens := 1;
        full_context := "SYS" +:+ nl +:+ "Q" |}.
Proof. by vm_compute. Qed.

(** The fallback count is [len(text) // 4]. *)
Example count_tokens_fallback :
  let w := online scenario_env all_stored in
  fst (count_tokens w "abcdefghij" default_model (start w)) = Ok 2.
Proof. reflexivity. Qed.

(** *** Token accounting *)

Lemma count_tokens_run ext text model_name st :
  count_tokens ext text model_name st =
  match tokenize ext model_name text with
  | Ok tokens => (Ok (length tokens), after st [CallEncodingForModel model_name])
  | Raise e =>
      (Ok (String.length text / 4),
       after st [CallEncodingForModel model_name;
                 Log WARNING ("Failed to count tokens with tiktoken: " +:+ str e)])
  end.
Proof.
  unfold count_tokens, tokenize, try_except, call, bind, emit, modify, lift, logger, ret, after.
  destruct (encoding_for_model ext model_name) as [enc|e]; cbn.
  - destruct (enc text) as [toks|e]; cbn; [reflexivity|].
    by rewrite <- app_assoc.
  - by rewrite <- app_assoc.
Qed.

(** C7: [count_tokens] returns the tokenizer's exact count when
    tokenization succeeds and [len(text) // 4] when it fails, for every
    text; it never raises; and for the empty text it returns 0 in either
    case, the tokenizer producing no token for the empty text. *)
Theorem count_tokens_exact_or_fallback ext text model_name st
    (Hempty : forall tokens, tokenize ext model_name "" = Ok tokens -> tokens = []) :
  let r := fst (count_tokens ext text model_name st) in
  (forall tokens, tokenize ext model_name text = Ok tokens -> r = Ok (length tokens)) /\
  (forall e, tokenize ext model_name text = Raise e -> r = Ok (String.length text / 4)) /\
  is_ok r = true /\
  (text = "" -> r = Ok 0).
Proof.
  cbn zeta. rewrite count_tokens_run.
  destruct (tokenize ext model_name text) as [toks|e] eqn:Htok; cbn.
  - repeat split; try congruence.
    intros ->. by rewrite (Hempty _ Htok).
  - repeat split; try congruence.
    by intros ->.
Qed.

Lemma count_tokens_exact_or_fallback_witness :
  let w := offline scenario_env "X" in
  (forall tokens, tokenize w default_model "" = Ok tokens -> tokens = []) /\
  (let r := fst (count_tokens w "abcdefgh" default_model (start w)) in
   (forall tokens, tokenize w default_model "abcdefgh" = Ok tokens -> r = Ok (length tokens)) /\
   (forall e, tokenize w default_model "abcdefgh" = Raise e ->
              r = Ok (String.length "abcdefgh" / 4)) /\
   is_ok r = true /\
   ("abcdefgh" = "" -> r = Ok 0)).
Proof.
  intros w.
  assert (H : forall tokens, tokenize w default_model "" = Ok tokens -> tokens = []).
  { intros tokens Htok. vm_compute in Htok. congruence. }
  split; [exact H|].
  exact (count_tokens_exact_or_fallback w "abcdefgh" default_model (start w) H).
Defined.

(** *** Configuration resolution *)

Lemma after_after s evs evs' : after (after s evs) evs' = after s (evs ++ evs').
Proof. unfold after; cbn. by rewrite <- app_assoc. Qed.

Lemma after_nil s : after s [] = s.
Proof. destruct s. unfold after; cbn. by rewrite app_nil_r. Qed.

Lemma emit_run e s : emit e s = (Ok tt, after s [e]).
Proof. reflexivity. Qed.

Lemma logger_run l m s : logger l m s = (Ok tt, after s [Log l m]).
Proof. reflexivity. Qed.

Lemma call_run {A} e (r : Result A) s : call e r s = (r, after s [e]).
Proof. reflexivity. Qed.

Lemma fetch_secret_run ext cfg key name envvar s :
  fetch_secret ext cfg key name envvar s =
  (Ok (setitem cfg key (fetched ext name)), after s (fetch_events ext name envvar)).
Proof.
  unfold fetch_secret, try_except, bind, fetched, fetch_events.
  rewrite call_run. destruct (get_secret ext name); cbn; [reflexivity|].
  by rewrite <- app_assoc.
Qed.

Lemma fetch_secrets_run ext cfg s :
  fetch_secrets ext cfg s =
  (Ok (setitem (setitem (setitem (setitem cfg
         "api_key" (fetched ext "AzureLLMKey"))
         "api_base" (fetched ext "AzureOpenAiBase"))
         "model_version" (fetched ext "AzureOpenAiVersion"))
         "deployment" (fetched ext "AzureOpenAiDeployment")),
   after s (fetch_events ext "AzureLLMKey" "AZURE_OPENAI_API_KEY" ++
            fetch_events ext "AzureOpenAiBase" "AZURE_OPENAI_ENDPOINT" ++
            fetch_events ext "AzureOpenAiVersion" "AZURE_OPENAI_API_VERSION" ++
            fetch_events ext "AzureOpenAiDeployment" "AZURE_OPENAI_DEPLOYMENT")).
Proof.
  unfold fetch_secrets, bind.
  rewrite !fetch_secret_run, !after_after. reflexivity.
Qed.

Lemma log_if_set_run cfg key render s :
  log_if_set cfg key render s = (Ok tt, after s (log_if_set_events cfg key render)).
Proof.
  unfold log_if_set, log_if_set_events.
  destruct (dict_get cfg key) as [[|c v]|]; cbn;
    rewrite ?after_nil; reflexivity.
Qed.

Lemma log_loaded_run cfg s :
  log_loaded cfg s = (Ok tt, after s (loaded_events cfg)).
Proof.
  unfold log_loaded, bind, loaded_events.
  rewrite !log_if_set_run, !after_after. reflexivity.
Qed.

Lemma use_environment_run ext s :
  use_environment ext s = (Ok tt, with_config (env_bundle ext s) s []).
Proof.
  unfold use_environment, bind, new_dict, fresh_oid, set_config, modify, ret,
    with_config, env_bundle; cbn.
  by rewrite app_nil_r.
Qed.

Lemma with_config_after d s evs evs' :
  with_config d (after s evs) evs' = with_config d s (evs ++ evs').
Proof. unfold with_config, after; cbn. by rewrite <- app_assoc. Qed.

#[local] Arguments logger : simpl never.
#[local] Arguments emit : simpl never.
#[local] Arguments call : simpl never.
#[local] Arguments use_environment : simpl never.
#[local] Arguments fetch_secrets : simpl never.
#[local] Arguments fill_from_env : simpl never.
#[local] Arguments log_loaded : simpl never.
#[local] Arguments env_config : simpl never.
#[local] Arguments count_tokens : simpl never.
#[local] Arguments after : simpl never.
#[local] Arguments with_config : simpl never.
#[local] Arguments fetch_events : simpl never.
#[local] Arguments loaded_events : simpl never.
#[local] Arguments session_events : simpl never.

(** Brings a trace to its right-nested form. *)
Ltac norm_trace :=
  repeat (rewrite <- app_assoc || rewrite <- app_comm_cons || rewrite app_nil_l).

Lemma env_bundle_after ext s evs : env_bundle ext (after s evs) = env_bundle ext s.
Proof. reflexivity. Qed.

Lemma vault_bundle_after ext s evs : vault_bundle ext (after s evs) = vault_bundle ext s.
Proof. reflexivity. Qed.

Lemma kv_url_after ext s evs : kv_url ext (after s evs) = kv_url ext s.
Proof. reflexivity. Qed.

Lemma config_with_config d s evs : _config (self (with_config d s evs)) = Some d.
Proof. reflexivity. Qed.

Lemma client_with_config d s evs : _client (self (with_config d s evs)) = _client (self s).
Proof. reflexivity. Qed.

Lemma self_after s evs : self (after s evs) = self s.
Proof. reflexivity. Qed.

Lemma trace_after s evs : trace (after s evs) = (trace s ++ evs)%list.
Proof. reflexivity. Qed.

Lemma trace_with_config d s evs : trace (with_config d s evs) = (trace s ++ evs)%list.
Proof. reflexivity. Qed.

Create Rewrite HintDb llm_run.
Hint Rewrite @emit_run @logger_run @call_run fetch_secrets_run log_loaded_run
  use_environment_run after_after with_config_after env_bundle_after
  vault_bundle_after kv_url_after config_with_config client_with_config
  self_after app_nil_r : llm_run.

(** Runs the effect primitives of a goal and tidies the resulting state. *)
Ltac run := repeat (progress (autorewrite with llm_run; cbn [fst snd])).

(** A cached bundle is returned as it is, with no effect. *)
Lemma load_cached ext s d :
  _config (self s) = Some d ->
  _load_config_from_vault ext s = (Ok (Some d), s).
Proof.
  intros H. unfold _load_config_from_vault, bind, gets, ret. cbn. rewrite H. by rewrite H.
Qed.

(** No location: the environment bundle, one log line, no store contact. *)
Lemma load_no_location ext s :
  _config (self s) = None ->
  truthy (kv_url ext s) = false ->
  _load_config_from_vault ext s =
  (Ok (Some (env_bundle ext s)),
   with_config (env_bundle ext s) s
     [Log INFO "No Key Vault URL configured; using environment variables for Azure OpenAI config"]).
Proof.
  intros Hc Hu. unfold _load_config_from_vault, bind, gets. rewrite Hc, Hu; cbn.
  run. reflexivity.
Qed.

(** Session failure: the environment bundle. *)
Lemma load_session_failure ext s e :
  _config (self s) = None ->
  truthy (kv_url ext s) = true ->
  session ext (show (kv_url ext s)) = Raise e ->
  _load_config_from_vault ext s =
  (Ok (Some (env_bundle ext s)),
   with_config (env_bundle ext s) s
     (session_events ext (show (kv_url ext s)) ++
      [Log WARNING ("Failed to access Azure Key Vault at " +:+ show (kv_url ext s) +:+ ": "
                    +:+ str e +:+ "; falling back to environment variables")])).
Proof.
  intros Hc Hu Hs. unfold _load_config_from_vault, bind, gets. rewrite Hc, Hu; cbn.
  unfold try_except, bind, session, session_events in *.
  run. destruct (DefaultAzureCredential ext) as [[]|e1].
  - run. rewrite Hs. run. reflexivity.
  - injection Hs as ->. run. reflexivity.
Qed.

(** Session success: the fetched bundle, back-filled from the environment. *)
Lemma load_session_ok ext s :
  _config (self s) = None ->
  truthy (kv_url ext s) = true ->
  session ext (show (kv_url ext s)) = Ok tt ->
  _load_config_from_vault ext s =
  (Ok (Some (vault_bundle ext s)),
   with_config (vault_bundle ext s) s
     (vault_events ext (show (kv_url ext s)) (vault_bundle ext s))).
Proof.
  intros Hc Hu Hs. unfold _load_config_from_vault, bind, gets. rewrite Hc, Hu; cbn.
  unfold try_except, bind, session in *.
  run. destruct (DefaultAzureCredential ext) as [[]|e1]; [|discriminate].
  run. rewrite Hs.
  unfold new_dict, bind, fresh_oid, ret. cbn. run.
  unfold set_config, modify. run.
  unfold with_config, vault_bundle, fetched_bundle, vault_events, after; cbn.
  norm_trace. reflexivity.
Qed.

(** *** The resolved bundle, field by field *)

Lemma env_bundle_api_key ext s :
  dict_get (env_bundle ext s) "api_key" = env_get ext "AZURE_OPENAI_API_KEY".
Proof. unfold dict_get, env_bundle, env_config; cbn [items]. by simplify_map_eq. Qed.

Lemma env_bundle_api_base ext s :
  dict_get (env_bundle ext s) "api_base" = env_get ext "AZURE_OPENAI_ENDPOINT".
Proof. unfold dict_get, env_bundle, env_config; cbn [items]. by simplify_map_eq. Qed.

Lemma env_bundle_model_version ext s :
  dict_get (env_bundle ext s) "model_version" =
  env_get_default ext "AZURE_OPENAI_API_VERSION" "2024-02-01".
Proof. unfold dict_get, env_bundle, env_config; cbn [items]. by simplify_map_eq. Qed.

Lemma env_bundle_deployment ext s :
  dict_get (env_bundle ext s) "deployment" = env_get ext "AZURE_OPENAI_DEPLOYMENT".
Proof. unfold dict_get, env_bundle, env_config; cbn [items]. by simplify_map_eq. Qed.

Ltac vault_field :=
  unfold dict_get, vault_bundle, fill_from_env, fetched_bundle, setitem, dict_get;
  cbn [items]; by simplify_map_eq.

Lemma vault_bundle_api_key ext s :
  dict_get (vault_bundle ext s) "api_key" =
  or_ (fetched ext "AzureLLMKey") (env_get ext "AZURE_OPENAI_API_KEY").
Proof. vault_field. Qed.

Lemma vault_bundle_api_base ext s :
  dict_get (vault_bundle ext s) "api_base" =
  or_ (fetched ext "AzureOpenAiBase") (env_get ext "AZURE_OPENAI_ENDPOINT").
Proof. vault_field. Qed.

Lemma vault_bundle_model_version ext s :
  dict_get (vault_bundle ext s) "model_version" =
  or_ (fetched ext "AzureOpenAiVersion")
      (env_get_default ext "AZURE_OPENAI_API_VERSION" "2024-02-01").
Proof. vault_field. Qed.

Lemma vault_bundle_deployment ext s :
  dict_get (vault_bundle ext s) "deployment" =
  or_ (fetched ext "AzureOpenAiDeployment") (env_get ext "AZURE_OPENAI_DEPLOYMENT").
Proof. vault_field. Qed.

Lemma env_bundle_field ext s f : dict_get (env_bundle ext s) (key f) = from_env ext f.
Proof.
  destruct f; cbn [key from_env];
    auto using env_bundle_api_key, env_bundle_api_base,
               env_bundle_model_version, env_bundle_deployment.
Qed.

Lemma vault_bundle_field ext s f :
  dict_get (vault_bundle ext s) (key f) = or_ (fetched ext (secret f)) (from_env ext f).
Proof.
  destruct f; cbn [key from_env secret];
    auto using vault_bundle_api_key, vault_bundle_api_base,
               vault_bundle_model_version, vault_bundle_deployment.
Qed.

Lemma load_run ext s :
  _load_config_from_vault ext s = (Ok (Some (resolve_bundle ext s)), loaded_state ext s).
Proof.
  unfold resolve_bundle, load_events, loaded_state.
  destruct (_config (self s)) as [d|] eqn:Hc.
  - by apply load_cached.
  - unfold resolve_bundle, load_events. rewrite Hc.
    destruct (truthy (kv_url ext s)) eqn:Hu.
    + destruct (session ext (show (kv_url ext s))) as [[]|e] eqn:Hs.
      * by apply load_session_ok.
      * by apply load_session_failure.
    + by apply load_no_location.
Qed.

Lemma loaded_state_config ext s :
  _config (self (loaded_state ext s)) = Some (resolve_bundle ext s).
Proof.
  unfold loaded_state, resolve_bundle.
  destruct (_config (self s)) eqn:Hc; [done|reflexivity].
Qed.

Lemma loaded_state_client ext s :
  _client (self (loaded_state ext s)) = _client (self s).
Proof. unfold loaded_state. by destruct (_config (self s)). Qed.

Lemma loaded_state_trace ext s :
  trace (loaded_state ext s) = (trace s ++ load_events ext s)%list.
Proof.
  unfold loaded_state, load_events.
  destruct (_config (self s)); [by rewrite app_nil_r|reflexivity].
Qed.

(** Resolution is idempotent: a second call, in any world, returns the
    cached bundle and changes nothing. *)
Lemma load_again ext ext' s :
  _load_config_from_vault ext' (loaded_state ext s) =
  (Ok (Some (resolve_bundle ext s)), loaded_state ext s).
Proof. apply load_cached, loaded_state_config. Qed.

(** *** Connection construction *)

Lemma env_bundle_has_keys ext s : has_keys (env_bundle ext s).
Proof.
  intros f. unfold env_bundle, env_config; cbn [items].
  destruct f; cbn [key]; by simplify_map_eq.
Qed.

Lemma vault_bundle_has_keys ext s : has_keys (vault_bundle ext s).
Proof.
  intros f. unfold vault_bundle, fill_from_env, fetched_bundle, setitem; cbn [items].
  destruct f; cbn [key]; by simplify_map_eq.
Qed.

Lemma getitem_has_keys d f : has_keys d -> getitem d (key f) = Ok (dict_get d (key f)).
Proof.
  intros H. unfold getitem, dict_get. by destruct (H f) as [v ->].
Qed.

#[local] Arguments _load_config_from_vault : simpl never.
#[local] Arguments missing_fields : simpl never.
#[local] Arguments missing_message : simpl never.
#[local] Arguments with_client : simpl never.

Lemma get_client_cached ext s c :
  _client (self s) = Some c -> _get_client ext s = (Ok (Some c), s).
Proof.
  intros H. unfold _get_client, bind, gets, ret. cbn. rewrite H. by rewrite H.
Qed.

Lemma get_client_missing ext s :
  _client (self s) = None ->
  missing_fields (resolve_bundle ext s) <> [] ->
  _get_client ext s =
  (Raise (ValueError (missing_message (missing_fields (resolve_bundle ext s)))),
   loaded_state ext s).
Proof.
  intros Hc Hm. unfold _get_client, bind, gets, ret. cbn. rewrite Hc.
  rewrite load_run. cbn.
  destruct (missing_fields (resolve_bundle ext s)); [done|reflexivity].
Qed.

Lemma get_client_connects ext s :
  _client (self s) = None ->
  has_keys (resolve_bundle ext s) ->
  missing_fields (resolve_bundle ext s) = [] ->
  _get_client ext s =
  (Ok (Some (connection (resolve_bundle ext s) (loaded_state ext s))),
   connected_state ext s).
Proof.
  intros Hc Hk Hm. unfold _get_client, bind, gets, ret. cbn. rewrite Hc.
  rewrite load_run. cbn. rewrite Hm.
  unfold opt_getitem, lift.
  pose proof (getitem_has_keys _ ApiBase Hk) as H1.
  pose proof (getitem_has_keys _ ApiKey Hk) as H2.
  pose proof (getitem_has_keys _ ModelVersion Hk) as H3.
  cbn [key] in H1, H2, H3. rewrite H1, H2, H3, emit_run. reflexivity.
Qed.

(** *** Content generation *)

Lemma count_tokens_default ext text s :
  count_tokens ext text default_model s =
  (Ok (token_count ext text), after s (count_tokens_events ext text)).
Proof.
  rewrite count_tokens_run. unfold token_count, count_tokens_events.
  by destruct (tokenize ext default_model text).
Qed.

Lemma finish_generation_run ext sys user_message workspace response s :
  finish_generation ext sys user_message workspace response s =
  match first_choice_text response with
  | Ok generated =>
      (Ok (generation_result ext sys user_message workspace generated),
       after s (finish_events ext workspace generated))
  | Raise e => (Raise e, s)
  end.
Proof.
  unfold finish_generation, bind, lift.
  destruct (first_choice_text response) as [g|e]; [|reflexivity].
  rewrite !count_tokens_default, logger_run, !after_after. reflexivity.
Qed.

#[local] Arguments _get_client : simpl never.
#[local] Arguments finish_generation : simpl never.
#[local] Arguments generation_failed : simpl never.

Lemma generate_run template ext prompt sections s :
  generate_content_with template ext prompt sections s =
  match _get_client ext (loaded_state ext s) with
  | (Raise e, s2) => failed e s2
  | (Ok client, s2) =>
      match eval_fstring template with
      | Raise e => failed e s2
      | Ok sys =>
          match client with
          | None => failed (AttributeError "'NoneType' object has no attribute 'chat'") s2
          | Some c =>
              match getitem (resolve_bundle ext s) "deployment" with
              | Raise e => failed e s2
              | Ok deployment =>
                  let request := chat_request deployment sys prompt in
                  let s3 := after s2 [CallChatCompletionsCreate request] in
                  match chat_completions_create ext c request with
                  | Raise e => failed e s3
                  | Ok response =>
                      match finish_generation ext sys prompt
                              (workspace_content sections) response s3 with
                      | (Ok r, s4) => (Ok r, s4)
                      | (Raise e, s4) => failed e s4
                      end
                  end
              end
          end
      end
  end.
Proof.
  unfold generate_content_with, try_except, bind at 1. rewrite load_run.
  unfold bind at 1.
  destruct (_get_client ext (loaded_state ext s)) as [[client|e] s2]; [|reflexivity].
  unfold bind at 1, lift at 1.
  destruct (eval_fstring template) as [sys|e]; [|reflexivity].
  unfold bind at 1.
  destruct client as [c|]; [|reflexivity]. cbn [ret].
  unfold bind at 1, lift at 1, opt_getitem.
  destruct (getitem (resolve_bundle ext s) "deployment") as [dep|e]; [|reflexivity].
  unfold bind at 1. rewrite call_run.
  destruct (chat_completions_create ext c _) as [resp|e]; [|reflexivity].
  destruct (finish_generation _ _ _ _ _ _) as [[r|e] s4]; reflexivity.
Qed.

(** *** Resolution when the store is unreachable or answers in part *)

(** C3: for every environment, when establishing the secret-store
    session fails, resolution does not raise: it returns, and caches, a
    bundle whose [api_key], [api_base] and [deployment] are the
    corresponding environment variables and whose API version is its
    environment variable, or ["2024-02-01"] when that is unset; no
    secret is fetched. *)
Theorem resolve_falls_back_when_session_fails ext s e :
  _config (self s) = None ->
  truthy (kv_url ext s) = true ->
  session ext (show (kv_url ext s)) = Raise e ->
  exists d s',
    _load_config_from_vault ext s = (Ok (Some d), s') /\
    _config (self s') = Some d /\
    dict_get d "api_key" = env ext !! "AZURE_OPENAI_API_KEY" /\
    dict_get d "api_base" = env ext !! "AZURE_OPENAI_ENDPOINT" /\
    dict_get d "deployment" = env ext !! "AZURE_OPENAI_DEPLOYMENT" /\
    dict_get d "model_version" =
      Some (default "2024-02-01" (env ext !! "AZURE_OPENAI_API_VERSION")) /\
    List.filter is_fetch (trace s') = List.filter is_fetch (trace s).
Proof.
  intros Hc Hu Hs. eexists _, _. split; [by apply load_session_failure|].
  split; [reflexivity|].
  rewrite env_bundle_api_key, env_bundle_api_base, env_bundle_deployment,
    env_bundle_model_version.
  repeat (split; [reflexivity|]).
  rewrite trace_with_config, !List.filter_app. unfold session_events.
  destruct (DefaultAzureCredential ext); cbn; by rewrite app_nil_r.
Qed.

Lemma resolve_falls_back_when_session_fails_witness :
  let w := offline scenario_env "X" in
  _config (self (start w)) = None /\
  truthy (kv_url w (start w)) = true /\
  session w (show (kv_url w (start w))) = Raise unavailable /\
  exists d s',
    _load_config_from_vault w (start w) = (Ok (Some d), s') /\
    _config (self s') = Some d /\
    dict_get d "api_key" = env w !! "AZURE_OPENAI_API_KEY" /\
    dict_get d "api_base" = env w !! "AZURE_OPENAI_ENDPOINT" /\
    dict_get d "deployment" = env w !! "AZURE_OPENAI_DEPLOYMENT" /\
    dict_get d "model_version" =
      Some (default "2024-02-01" (env w !! "AZURE_OPENAI_API_VERSION")) /\
    List.filter is_fetch (trace s') = List.filter is_fetch (trace (start w)).
Proof.
  intros w.
  assert (H1 : _config (self (start w)) = None) by reflexivity.
  assert (H2 : truthy (kv_url w (start w)) = true) by reflexivity.
  assert (H3 : session w (show (kv_url w (start w))) = Raise unavailable) by reflexivity.
  repeat (split; [assumption|]).
  exact (resolve_falls_back_when_session_fails w (start w) unavailable H1 H2 H3).
Defined.

Section Filters.
(** Filtering the events of each step with a predicate that ignores
    log lines. *)
Variable p : Event -> bool.
Hypothesis p_log : forall level msg, p (Log level msg) = false.

Lemma filter_fetch_events ext name envvar :
  List.filter p (fetch_events ext name envvar) = List.filter p [CallGetSecret name].
Proof.
  unfold fetch_events. destruct (get_secret ext name); cbn; [reflexivity|].
  rewrite p_log. reflexivity.
Qed.

Lemma filter_log_if_set_events d k render :
  List.filter p (log_if_set_events d k render) = [].
Proof.
  unfold log_if_set_events. destruct (dict_get d k) as [[|c v]|]; cbn; try reflexivity.
  by rewrite p_log.
Qed.

Lemma filter_loaded_events d : List.filter p (loaded_events d) = [].
Proof.
  unfold loaded_events. by rewrite !List.filter_app, !filter_log_if_set_events.
Qed.

Lemma filter_vault_events ext url d :
  List.filter p (vault_events ext url d) =
  List.filter p [CallDefaultAzureCredential; CallSecretClient url;
                 CallGetSecret "AzureLLMKey"; CallGetSecret "AzureOpenAiBase";
                 CallGetSecret "AzureOpenAiVersion"; CallGetSecret "AzureOpenAiDeployment"].
Proof.
  unfold vault_events.
  rewrite !List.filter_app, !filter_fetch_events, filter_loaded_events, app_nil_r.
  rewrite <- !List.filter_app. reflexivity.
Qed.

Lemma filter_count_tokens_events ext text :
  List.filter p (count_tokens_events ext text) =
  List.filter p [CallEncodingForModel default_model].
Proof.
  unfold count_tokens_events. destruct (tokenize ext default_model text); cbn;
    [reflexivity|]. by rewrite p_log.
Qed.

Lemma filter_finish_events ext workspace generated :
  List.filter p (finish_events ext workspace generated) =
  List.filter p [CallEncodingForModel default_model; CallEncodingForModel default_model].
Proof.
  unfold finish_events.
  rewrite !List.filter_app, !filter_count_tokens_events. cbn.
  rewrite p_log, app_nil_r. by destruct (p (CallEncodingForModel default_model)).
Qed.
End Filters.

(** C4, as amended: when the session opens, the four fetches are isolated.  All four
    are attempted, in order, whatever their outcomes; a field whose fetch
    returned a non-empty value holds that value; a field whose fetch
    failed holds its environment value.  (Hence, when exactly one fetch
    fails, the other three fields are the non-empty values of the store
    and only the failed one comes from the environment.) *)
Theorem fetches_are_isolated ext s :
  _config (self s) = None ->
  truthy (kv_url ext s) = true ->
  session ext (show (kv_url ext s)) = Ok tt ->
  exists d s' evs,
    _load_config_from_vault ext s = (Ok (Some d), s') /\
    trace s' = (trace s ++ evs)%list /\
    List.filter is_fetch evs =
      [CallGetSecret "AzureLLMKey"; CallGetSecret "AzureOpenAiBase";
       CallGetSecret "AzureOpenAiVersion"; CallGetSecret "AzureOpenAiDeployment"] /\
    forall f,
      (forall v, get_secret ext (secret f) = Ok v -> truthy v = true ->
                 dict_get d (key f) = v) /\
      (forall e, get_secret ext (secret f) = Raise e ->
                 dict_get d (key f) = from_env ext f).
Proof.
  intros Hc Hu Hs. eexists _, _, _. split; [by apply load_session_ok|].
  split; [apply trace_with_config|].
  split; [by rewrite filter_vault_events|].
  intros f. rewrite vault_bundle_field. unfold fetched, or_.
  split.
  - intros v -> Hv. by rewrite Hv.
  - intros e ->. reflexivity.
Qed.

Lemma fetches_are_isolated_witness :
  let w := online scenario_env one_missing_one_empty in
  _config (self (start w)) = None /\
  truthy (kv_url w (start w)) = true /\
  session w (show (kv_url w (start w))) = Ok tt /\
  exists d s' evs,
    _load_config_from_vault w (start w) = (Ok (Some d), s') /\
    trace s' = (trace (start w) ++ evs)%list /\
    List.filter is_fetch evs =
      [CallGetSecret "AzureLLMKey"; CallGetSecret "AzureOpenAiBase";
       CallGetSecret "AzureOpenAiVersion"; CallGetSecret "AzureOpenAiDeployment"] /\
    forall f,
      (forall v, get_secret w (secret f) = Ok v -> truthy v = true ->
                 dict_get d (key f) = v) /\
      (forall e, get_secret w (secret f) = Raise e ->
                 dict_get d (key f) = from_env w f).
Proof.
  intros w.
  assert (H1 : _config (self (start w)) = None) by reflexivity.
  assert (H2 : truthy (kv_url w (start w)) = true) by reflexivity.
  assert (H3 : session w (show (kv_url w (start w))) = Ok tt) by reflexivity.
  repeat (split; [assumption|]).
  exact (fetches_are_isolated w (start w) H1 H2 H3).
Defined.

(** C4 as stated fails: the session opens, exactly one fetch (the key)
    fails, the store returns the empty string for the endpoint, and the
    resolved endpoint is the environment's, not the value fetched from
    the store. *)
Lemma fetched_empty_value_is_not_kept :
  let w := online scenario_env one_missing_one_empty in
  session w (show (kv_url w (start w))) = Ok tt /\
  get_secret w "AzureLLMKey" = Raise not_found /\
  get_secret w "AzureOpenAiBase" = Ok (Some "") /\
  get_secret w "AzureOpenAiVersion" = Ok (Some "2023-05-15") /\
  get_secret w "AzureOpenAiDeployment" = Ok (Some "gpt-35") /\
  exists d s',
    _load_config_from_vault w (start w) = (Ok (Some d), s') /\
    dict_get d "api_base" = Some "https://x" /\
    dict_get d "api_base" <> Some "".
Proof.
  intros w. repeat (split; [reflexivity|]).
  eexists _, _. split; [by apply load_session_ok|].
  rewrite vault_bundle_api_base. split; [reflexivity|discriminate].
Qed.

(** C10: for each field, when the store returns a falsy value, in
    particular the empty string, resolution back-fills the field from
    its environment variable, the API version defaulting to
    ["2024-02-01"]. *)
Theorem falsy_secret_is_backfilled ext s f v :
  _config (self s) = None ->
  truthy (kv_url ext s) = true ->
  session ext (show (kv_url ext s)) = Ok tt ->
  get_secret ext (secret f) = Ok v ->
  truthy v = false ->
  exists d s',
    _load_config_from_vault ext s = (Ok (Some d), s') /\
    dict_get d (key f) = from_env ext f /\
    from_env ext ModelVersion =
      Some (default "2024-02-01" (env ext !! "AZURE_OPENAI_API_VERSION")).
Proof.
  intros Hc Hu Hs Hv Hf. eexists _, _. split; [by apply load_session_ok|].
  split; [|reflexivity].
  rewrite vault_bundle_field. unfold fetched, or_. by rewrite Hv, Hf.
Qed.

Lemma falsy_secret_is_backfilled_witness :
  let w := online scenario_env one_missing_one_empty in
  _config (self (start w)) = None /\
  truthy (kv_url w (start w)) = true /\
  session w (show (kv_url w (start w))) = Ok tt /\
  get_secret w (secret ApiBase) = Ok (Some "") /\
  truthy (Some "") = false /\
  exists d s',
    _load_config_from_vault w (start w) = (Ok (Some d), s') /\
    dict_get d (key ApiBase) = from_env w ApiBase /\
    from_env w ModelVersion =
      Some (default "2024-02-01" (env w !! "AZURE_OPENAI_API_VERSION")).
Proof.
  intros w.
  assert (H1 : _config (self (start w)) = None) by reflexivity.
  assert (H2 : truthy (kv_url w (start w)) = true) by reflexivity.
  assert (H3 : session w (show (kv_url w (start w))) = Ok tt) by reflexivity.
  assert (H4 : get_secret w (secret ApiBase) = Ok (Some "")) by reflexivity.
  assert (H5 : truthy (Some "") = false) by reflexivity.
  repeat (split; [assumption|]).
  exact (falsy_secret_is_backfilled w (start w) ApiBase (Some "") H1 H2 H3 H4 H5).
Defined.

(** *** The invariant of a client instance *)

Lemma inv_start ext : state_inv (start ext).
Proof. split; intros ? H; discriminate H. Qed.

Lemma inv_without_location : state_inv without_location.
Proof. split; intros ? H; discriminate H. Qed.

Lemma resolve_bundle_has_keys ext s : state_inv s -> has_keys (resolve_bundle ext s).
Proof.
  intros [Hk _]. unfold resolve_bundle.
  destruct (_config (self s)) as [d|]; [by apply Hk|].
  destruct (truthy (kv_url ext s)); [|apply env_bundle_has_keys].
  destruct (session ext _); [apply vault_bundle_has_keys|apply env_bundle_has_keys].
Qed.

Lemma resolve_bundle_cached ext s d : _config (self s) = Some d -> resolve_bundle ext s = d.
Proof. intros H. unfold resolve_bundle. by rewrite H. Qed.

Lemma loaded_state_cached ext s d : _config (self s) = Some d -> loaded_state ext s = s.
Proof. intros H. unfold loaded_state. by rewrite H. Qed.

Lemma inv_loaded ext s : state_inv s -> state_inv (loaded_state ext s).
Proof.
  intros Hinv. pose proof (resolve_bundle_has_keys ext s Hinv) as Hk.
  destruct Hinv as [H1 H2]. split.
  - intros d. rewrite loaded_state_config. by intros [= <-].
  - intros c. rewrite loaded_state_client, loaded_state_config. intros Hc.
    destruct (H2 c Hc) as (d & Hd & Hm & Hb).
    exists d. by rewrite (resolve_bundle_cached _ _ _ Hd).
Qed.

Lemma inv_connected ext s :
  state_inv s -> missing_fields (resolve_bundle ext s) = [] ->
  state_inv (connected_state ext s).
Proof.
  intros Hinv Hm. pose proof (resolve_bundle_has_keys ext s Hinv) as Hk. split.
  - intros d. unfold connected_state, with_client; cbn [self _config].
    rewrite loaded_state_config. by intros [= <-].
  - intros c. unfold connected_state, with_client; cbn [self _config _client].
    intros [= <-]. exists (resolve_bundle ext s).
    rewrite loaded_state_config. by repeat split.
Qed.

Lemma inv_get_client ext s : state_inv s -> state_inv (snd (_get_client ext s)).
Proof.
  intros Hinv. destruct (_client (self s)) as [c|] eqn:Hc.
  - by rewrite (get_client_cached _ _ _ Hc).
  - destruct (missing_fields (resolve_bundle ext s)) eqn:Hm.
    + rewrite get_client_connects by eauto using resolve_bundle_has_keys.
      by apply inv_connected.
    + rewrite get_client_missing by (try done; by rewrite Hm).
      by apply inv_loaded.
Qed.

(** *** The location and the connection *)

Lemma missing_fields_spec d k :
  In k (missing_fields d) <-> In k required_fields /\ truthy (dict_get d k) = false.
Proof.
  unfold missing_fields. rewrite List.filter_In, negb_true_iff. reflexivity.
Qed.

Lemma missing_fields_complete d :
  truthy (dict_get d "api_key") = true ->
  truthy (dict_get d "api_base") = true ->
  truthy (dict_get d "deployment") = true ->
  missing_fields d = [].
Proof.
  intros H1 H2 H3. unfold missing_fields, required_fields. cbn.
  by rewrite H1, H2, H3.
Qed.

(** C5, as amended: when the location resolution decides on (the environment
    override, else the location stored in the instance) is empty, the
    bundle is built from the four environment variables alone and the
    secret store is not contacted; the API version defaults to
    ["2024-02-01"].  In the scenario key ["k"], endpoint ["https://x"],
    deployment ["gpt-4"] and no version, the bundle is exactly these
    with version ["2024-02-01"], and connection construction succeeds. *)
Theorem no_location_uses_environment ext s :
  _config (self s) = None ->
  _client (self s) = None ->
  truthy (kv_url ext s) = false ->
  exists d s',
    _load_config_from_vault ext s = (Ok (Some d), s') /\
    (forall f, dict_get d (key f) = from_env ext f) /\
    from_env ext ModelVersion =
      Some (default "2024-02-01" (env ext !! "AZURE_OPENAI_API_VERSION")) /\
    trace s' =
      (trace s ++ [Log INFO "No Key Vault URL configured; using environment variables for Azure OpenAI config"])%list /\
    List.filter is_store_event (trace s') = List.filter is_store_event (trace s) /\
    (env ext !! "AZURE_OPENAI_API_KEY" = Some "k" ->
     env ext !! "AZURE_OPENAI_ENDPOINT" = Some "https://x" ->
     env ext !! "AZURE_OPENAI_DEPLOYMENT" = Some "gpt-4" ->
     env ext !! "AZURE_OPENAI_API_VERSION" = None ->
     dict_get d "api_key" = Some "k" /\
     dict_get d "api_base" = Some "https://x" /\
     dict_get d "model_version" = Some "2024-02-01" /\
     dict_get d "deployment" = Some "gpt-4" /\
     exists c s'',
       _get_client ext s = (Ok (Some c), s'') /\
       azure_endpoint c = Some "https://x" /\
       api_key c = Some "k" /\
       api_version c = Some "2024-02-01").
Proof.
  intros Hc Hcl Hu. eexists _, _. split; [by apply load_no_location|].
  split; [intros f; apply env_bundle_field|].
  split; [reflexivity|].
  split; [apply trace_with_config|].
  split; [rewrite trace_with_config, List.filter_app; cbn; by rewrite app_nil_r|].
  intros Hk Hb Hd Hv.
  assert (Hr : resolve_bundle ext s = env_bundle ext s).
  { unfold resolve_bundle. by rewrite Hc, Hu. }
  assert (E1 : dict_get (env_bundle ext s) "api_key" = Some "k")
    by (by rewrite env_bundle_api_key).
  assert (E2 : dict_get (env_bundle ext s) "api_base" = Some "https://x")
    by (by rewrite env_bundle_api_base).
  assert (E3 : dict_get (env_bundle ext s) "model_version" = Some "2024-02-01")
    by (rewrite env_bundle_model_version; unfold env_get_default; by rewrite Hv).
  assert (E4 : dict_get (env_bundle ext s) "deployment" = Some "gpt-4")
    by (by rewrite env_bundle_deployment).
  repeat (split; [assumption|]).
  eexists _, _. split.
  - apply get_client_connects; [done| |]; rewrite Hr.
    + apply env_bundle_has_keys.
    + apply missing_fields_complete; by rewrite ?E1, ?E2, ?E4.
  - rewrite Hr. cbn [connection azure_endpoint api_key api_version]. by rewrite E1, E2, E3.
Qed.

Lemma no_location_uses_environment_witness :
  let w := offline scenario_env "X" in
  let s := without_location in
  _config (self s) = None /\
  _client (self s) = None /\
  truthy (kv_url w s) = false /\
  exists d s',
    _load_config_from_vault w s = (Ok (Some d), s') /\
    trace s' =
      [Log INFO "No Key Vault URL configured; using environment variables for Azure OpenAI config"] /\
    dict_get d "api_key" = Some "k" /\
    dict_get d "api_base" = Some "https://x" /\
    dict_get d "model_version" = Some "2024-02-01" /\
    dict_get d "deployment" = Some "gpt-4" /\
    exists c s'',
      _get_client w s = (Ok (Some c), s'') /\
      azure_endpoint c = Some "https://x" /\
      api_key c = Some "k" /\
      api_version c = Some "2024-02-01".
Proof.
  intros w s.
  assert (H1 : _config (self s) = None) by reflexivity.
  assert (H2 : _client (self s) = None) by reflexivity.
  assert (H3 : truthy (kv_url w s) = false) by reflexivity.
  repeat (split; [assumption|]).
  destruct (no_location_uses_environment w s H1 H2 H3)
    as (d & s' & Hload & _ & _ & Htrace & _ & Hscenario).
  exists d, s'. split; [exact Hload|]. split; [exact Htrace|].
  apply Hscenario; reflexivity.
Defined.

(** C5 as stated fails: with no location override in the environment, a
    constructed client resolves against the built-in default location.
    Here the store answers, so it is contacted six times and the
    resolved key is the store's, not the environment's ["k"]. *)
Lemma default_location_contacts_the_store :
  let w := online scenario_env all_stored in
  env_get w "KEY_VAULT_URL" = None /\
  env_get w "AZURE_OPENAI_API_KEY" = Some "k" /\
  exists d s',
    _load_config_from_vault w (start w) = (Ok (Some d), s') /\
    List.filter is_store_event (trace s') =
      [CallDefaultAzureCredential;
       CallSecretClient "https://KV-fs-to-autogen.vault.azure.net/";
       CallGetSecret "AzureLLMKey"; CallGetSecret "AzureOpenAiBase";
       CallGetSecret "AzureOpenAiVersion"; CallGetSecret "AzureOpenAiDeployment"] /\
    dict_get d "api_key" = Some "vault-key" /\
    dict_get d "api_key" <> Some "k".
Proof.
  intros w. repeat (split; [reflexivity|]).
  eexists _, _. split; [by apply load_session_ok|].
  split.
  - rewrite trace_with_config. cbn [start trace app].
    by rewrite filter_vault_events.
  - rewrite vault_bundle_api_key. split; [reflexivity|discriminate].
Qed.

(** C1, as amended: in a state satisfying the instance invariant, connection
    construction raises exactly when one of [api_key], [api_base],
    [deployment] is falsy in the resolved bundle.  The error is a
    [ValueError] whose message lists exactly the missing fields, followed
    by guidance that names the three environment variables and points to
    the Key Vault and [KEY_VAULT_URL].  When all three are present the
    connection is returned, cached, and bound to the bundle's settings. *)
Theorem get_client_validates ext s d :
  state_inv s ->
  fst (_load_config_from_vault ext s) = Ok (Some d) ->
  ((exists e, fst (_get_client ext s) = Raise e) <-> missing_fields d <> []) /\
  (missing_fields d <> [] ->
   fst (_get_client ext s) =
     Raise (ValueError ("Missing required Azure OpenAI config: " +:+
                        join ", " (missing_fields d) +:+ remediation_guidance))) /\
  (forall k, In k (missing_fields d) <->
             In k ["api_key"; "api_base"; "deployment"] /\ truthy (dict_get d k) = false) /\
  mentions remediation_guidance "AZURE_OPENAI_API_KEY" = true /\
  mentions remediation_guidance "AZURE_OPENAI_ENDPOINT" = true /\
  mentions remediation_guidance "AZURE_OPENAI_DEPLOYMENT" = true /\
  mentions remediation_guidance "Azure Key Vault" = true /\
  mentions remediation_guidance "KEY_VAULT_URL" = true /\
  (missing_fields d = [] ->
   exists c s',
     _get_client ext s = (Ok (Some c), s') /\ _client (self s') = Some c /\ bound c d).
Proof.
  intros Hinv. rewrite load_run. cbn [fst]. intros [= <-].
  pose proof (resolve_bundle_has_keys ext s Hinv) as Hk.
  assert (Hcases :
    (missing_fields (resolve_bundle ext s) <> [] ->
     fst (_get_client ext s) =
       Raise (ValueError (missing_message (missing_fields (resolve_bundle ext s))))) /\
    (missing_fields (resolve_bundle ext s) = [] ->
     exists c s', _get_client ext s = (Ok (Some c), s') /\
                  _client (self s') = Some c /\ bound c (resolve_bundle ext s))).
  { destruct (_client (self s)) as [c|] eqn:Hc.
    - destruct Hinv as [_ H2]. destruct (H2 c Hc) as (d & Hd & Hm & Hb).
      rewrite (resolve_bundle_cached _ _ _ Hd). split; [by rewrite Hm|].
      intros _. exists c, s. by rewrite (get_client_cached _ _ _ Hc).
    - split.
      + intros Hm. by rewrite get_client_missing.
      + intros Hm. eexists _, _. split; [by apply get_client_connects|].
        by repeat split. }
  destruct Hcases as [Hraise Hok].
  split; [|split; [exact Hraise|]].
  - split.
    + intros [e He] Hm. destruct (Hok Hm) as (c & s' & Hrun & _).
      rewrite Hrun in He. discriminate He.
    + intros Hm. eexists. by apply Hraise.
  - split; [apply missing_fields_spec|].
    repeat (split; [by vm_compute|]). exact Hok.
Qed.

Lemma get_client_validates_witness :
  let w := offline no_deployment_env "X" in
  state_inv (start w) /\
  exists d,
    fst (_load_config_from_vault w (start w)) = Ok (Some d) /\
    missing_fields d = ["deployment"] /\
    fst (_get_client w (start w)) =
      Raise (ValueError ("Missing required Azure OpenAI config: " +:+
                         join ", " (missing_fields d) +:+ remediation_guidance)).
Proof.
  intros w. split; [apply inv_start|].
  eexists. split; [by rewrite load_run|].
  assert (Hm : missing_fields (resolve_bundle w (start w)) = ["deployment"])
    by (by vm_compute).
  split; [exact Hm|].
  apply (get_client_validates w (start w) _ (inv_start w)); [by rewrite load_run|].
  by rewrite Hm.
Defined.

(** C1 as stated fails on the remediation text: with the deployment
    missing, the message names the missing field and the environment
    variables, but none of the four secret names. *)
Lemma configuration_error_names_no_secret :
  let w := offline no_deployment_env "X" in
  exists msg,
    fst (_get_client w (start w)) = Raise (ValueError msg) /\
    msg = "Missing required Azure OpenAI config: deployment. Provide these via environment variables (AZURE_OPENAI_API_KEY, AZURE_OPENAI_ENDPOINT, AZURE_OPENAI_DEPLOYMENT) or configure them in Azure Key Vault and set KEY_VAULT_URL." /\
    mentions msg "AzureLLMKey" = false /\
    mentions msg "AzureOpenAiBase" = false /\
    mentions msg "AzureOpenAiVersion" = false /\
    mentions msg "AzureOpenAiDeployment" = false.
Proof.
  intros w. eexists. split; [by vm_compute|].
  repeat split; by vm_compute.
Qed.

(** *** Memoization and failure handling *)

Lemma get_client_uncached ext s :
  _client (self s) = None ->
  _get_client ext s = validate_and_connect (resolve_bundle ext s) (loaded_state ext s).
Proof.
  intros Hc. unfold _get_client, validate_and_connect, bind at 1, gets at 1.
  rewrite Hc. unfold bind at 1, bind at 1. rewrite load_run.
  unfold ret at 1, bind at 3.
  destruct (missing_fields (resolve_bundle ext s)); reflexivity.
Qed.

Lemma resolve_bundle_loaded ext ext' s :
  resolve_bundle ext' (loaded_state ext s) = resolve_bundle ext s.
Proof. apply resolve_bundle_cached, loaded_state_config. Qed.

Lemma loaded_state_loaded ext ext' s :
  loaded_state ext' (loaded_state ext s) = loaded_state ext s.
Proof. eapply loaded_state_cached, loaded_state_config. Qed.

Lemma get_client_at_loaded ext s :
  _client (self s) = None ->
  _get_client ext (loaded_state ext s) = _get_client ext s.
Proof.
  intros Hc. rewrite !get_client_uncached by (by rewrite ?loaded_state_client).
  by rewrite resolve_bundle_loaded, loaded_state_loaded.
Qed.

Section Traces.
(** Events selected by a predicate that ignores log lines, tokenizer
    look-ups and connection construction. *)
Variable p : Event -> bool.
Hypothesis p_log : forall level msg, p (Log level msg) = false.
Hypothesis p_encoding : forall m, p (CallEncodingForModel m) = false.
Hypothesis p_connect : forall a b c, p (CallAzureOpenAI a b c) = false.

Lemma validate_and_connect_keeps d s :
  let s2 := snd (validate_and_connect d s) in
  List.filter p (trace s2) = List.filter p (trace s) /\
  _config (self s2) = _config (self s).
Proof.
  remember (validate_and_connect d s) as res eqn:E.
  unfold validate_and_connect, bind, lift, emit, modify, fresh_oid, set_client,
    gets, raise, ret in E.
  destruct (missing_fields d); [|by subst res].
  destruct (getitem d "api_base"); [|by subst res].
  destruct (getitem d "api_key"); [|by subst res].
  destruct (getitem d "model_version"); [|by subst res].
  subst res; cbn. by rewrite List.filter_app; cbn; rewrite p_connect, app_nil_r.
Qed.

Lemma get_client_keeps ext s d :
  _config (self s) = Some d ->
  let s2 := snd (_get_client ext s) in
  List.filter p (trace s2) = List.filter p (trace s) /\
  _config (self s2) = Some d.
Proof.
  intros Hd. destruct (_client (self s)) as [c|] eqn:Hc.
  - by rewrite (get_client_cached _ _ _ Hc).
  - rewrite (get_client_uncached _ _ Hc), (loaded_state_cached _ _ _ Hd).
    cbn zeta. rewrite <- Hd. apply validate_and_connect_keeps.
Qed.

Lemma failed_keeps e s :
  List.filter p (trace (snd (failed e s))) = List.filter p (trace s) /\
  _config (self (snd (failed e s))) = _config (self s).
Proof.
  unfold failed; cbn [snd]. rewrite trace_after, List.filter_app; cbn.
  by rewrite p_log, app_nil_r.
Qed.

(** The events of one [generate_content] call: those of resolution,
    then at most one API invocation. *)
Lemma generate_trace template ext prompt sections s :
  let s' := snd (generate_content_with template ext prompt sections s) in
  _config (self s') = Some (resolve_bundle ext s) /\
  exists api,
    (api = [] \/ exists request, api = [CallChatCompletionsCreate request]) /\
    List.filter p (trace s') =
    List.filter p ((trace s ++ load_events ext s) ++ api).
Proof.
  cbn zeta. rewrite generate_run.
  pose proof (get_client_keeps ext (loaded_state ext s) _ (loaded_state_config ext s))
    as [Ht Hc].
  rewrite loaded_state_trace in Ht.
  destruct (_get_client ext (loaded_state ext s)) as [[client|e] s2]; cbn [snd] in *.
  2: { destruct (failed_keeps e s2) as [-> ->]. split; [done|].
       exists []. split; [by left|]. by rewrite app_nil_r. }
  assert (Hfail : forall e,
    _config (self (snd (failed e s2))) = Some (resolve_bundle ext s) /\
    exists api,
      (api = [] \/ exists request, api = [CallChatCompletionsCreate request]) /\
      List.filter p (trace (snd (failed e s2))) =
      List.filter p ((trace s ++ load_events ext s) ++ api)).
  { intros e. destruct (failed_keeps e s2) as [-> ->]. split; [done|].
    exists []. split; [by left|]. by rewrite app_nil_r. }
  destruct (eval_fstring template) as [sys|e]; [|apply Hfail].
  destruct client as [c|]; [|apply Hfail].
  destruct (getitem (resolve_bundle ext s) "deployment") as [dep|e]; [|apply Hfail].
  cbn zeta. set (request := chat_request dep sys prompt).
  assert (Hs3 : List.filter p (trace (after s2 [CallChatCompletionsCreate request])) =
                List.filter p ((trace s ++ load_events ext s) ++
                               [CallChatCompletionsCreate request])).
  { by rewrite trace_after, !List.filter_app, Ht, !List.filter_app. }
  destruct (chat_completions_create ext c request) as [response|e].
  2: { destruct (failed_keeps e (after s2 [CallChatCompletionsCreate request]))
         as [-> ->]. split; [done|].
       exists [CallChatCompletionsCreate request]. split; [right; by eexists|done]. }
  rewrite finish_generation_run.
  destruct (first_choice_text response) as [generated|e].
  - cbn [snd]. split; [done|].
    exists [CallChatCompletionsCreate request]. split; [right; by eexists|].
    rewrite trace_after, List.filter_app, filter_finish_events by done.
    cbn [List.filter]. by rewrite !p_encoding, app_nil_r.
  - destruct (failed_keeps e (after s2 [CallChatCompletionsCreate request]))
      as [-> ->]. split; [done|].
    exists [CallChatCompletionsCreate request]. split; [right; by eexists|done].
Qed.
End Traces.

Lemma load_events_cached ext s d : _config (self s) = Some d -> load_events ext s = [].
Proof. intros H. unfold load_events. by rewrite H. Qed.

Lemma load_events_no_api_call ext s : List.filter is_api_call (load_events ext s) = [].
Proof.
  unfold load_events. destruct (_config (self s)); [done|].
  destruct (truthy (kv_url ext s)); [|done].
  destruct (session ext _).
  - by rewrite filter_vault_events.
  - rewrite List.filter_app. unfold session_events.
    by destruct (DefaultAzureCredential ext).
Qed.

Lemma load_events_one_session ext s :
  count is_secret_client_call (load_events ext s) <= 1.
Proof.
  unfold count, load_events. destruct (_config (self s)); [cbn; lia|].
  destruct (truthy (kv_url ext s)); [|cbn; lia].
  destruct (session ext _).
  - rewrite filter_vault_events by done. cbn. lia.
  - rewrite List.filter_app. unfold session_events.
    destruct (DefaultAzureCredential ext); cbn; lia.
Qed.

(** A call that returned [Ok] left its result in [self._client]. *)
Lemma get_client_ok ext s c s1 :
  _get_client ext s = (Ok c, s1) -> exists conn, c = Some conn /\ _client (self s1) = Some conn.
Proof.
  destruct (_client (self s)) as [c0|] eqn:Hc.
  - rewrite (get_client_cached _ _ _ Hc). intros [= <- <-]. by exists c0.
  - rewrite (get_client_uncached _ _ Hc).
    unfold validate_and_connect, bind, lift, emit, modify, fresh_oid, set_client,
      gets, raise, ret.
    destruct (missing_fields _); [|discriminate].
    destruct (getitem _ "api_base"); [|discriminate].
    destruct (getitem _ "api_key"); [|discriminate].
    destruct (getitem _ "model_version"); [|discriminate].
    cbn. intros [= <- <-]. by eexists.
Qed.

(** C8: resolution and connection construction are memoized per
    instance.  After a completed call, a later call, in whatever world,
    returns the same cached object and leaves the state, trace included,
    untouched: the store is not contacted again and no connection is
    built.  Two successive [generate_content] calls contact the store
    only during the first, and construct the session at most once. *)
Theorem memoized_per_instance ext s :
  (forall r s1, _load_config_from_vault ext s = (Ok r, s1) ->
     forall ext', _load_config_from_vault ext' s1 = (Ok r, s1)) /\
  (forall c s1, _get_client ext s = (Ok c, s1) ->
     forall ext', _get_client ext' s1 = (Ok c, s1)) /\
  (forall ext' prompt sections prompt' sections',
     let s1 := snd (generate_content ext prompt sections s) in
     let s2 := snd (generate_content ext' prompt' sections' s1) in
     List.filter is_store_event (trace s2) = List.filter is_store_event (trace s1) /\
     count is_secret_client_call (trace s2) <= count is_secret_client_call (trace s) + 1).
Proof.
  split; [|split].
  - intros r s1. rewrite load_run. intros [= <- <-] ext'. apply load_again.
  - intros c s1 Hrun ext'. destruct (get_client_ok _ _ _ _ Hrun) as (conn & -> & Hc).
    by apply get_client_cached.
  - intros ext' prompt sections prompt' sections'. cbn zeta. unfold generate_content.
    set (s1 := snd (generate_content_with system_prompt ext prompt sections s)).
    assert (Hcfg : _config (self s1) = Some (resolve_bundle ext s)).
    { by destruct (generate_trace is_store_event ltac:(done) ltac:(done) ltac:(done)
                     system_prompt ext prompt sections s) as [H _]. }
    split.
    + destruct (generate_trace is_store_event ltac:(done) ltac:(done) ltac:(done)
                  system_prompt ext' prompt' sections' s1) as (_ & api & Hapi & ->).
      rewrite (load_events_cached _ _ _ Hcfg), app_nil_r, List.filter_app.
      destruct Hapi as [->|[request ->]]; cbn; by rewrite app_nil_r.
    + unfold count.
      destruct (generate_trace is_secret_client_call ltac:(done) ltac:(done) ltac:(done)
                  system_prompt ext' prompt' sections' s1) as (_ & api' & Hapi' & ->).
      rewrite (load_events_cached _ _ _ Hcfg), app_nil_r, List.filter_app.
      assert (List.filter is_secret_client_call api' = []) as ->
        by (by destruct Hapi' as [->|[request ->]]).
      rewrite app_nil_r. subst s1.
      destruct (generate_trace is_secret_client_call ltac:(done) ltac:(done) ltac:(done)
                  system_prompt ext prompt sections s) as (_ & api & Hapi & ->).
      rewrite !List.filter_app, !length_app.
      assert (List.filter is_secret_client_call api = []) as ->
        by (by destruct Hapi as [->|[request ->]]).
      pose proof (load_events_one_session ext s) as H. unfold count in H. cbn. lia.
Qed.

Lemma memoized_per_instance_witness :
  let w := offline scenario_env "X" in
  let w' := online no_deployment_env all_stored in
  exists d c s1 s2,
    _load_config_from_vault w (start w) = (Ok (Some d), s1) /\
    _load_config_from_vault w' s1 = (Ok (Some d), s1) /\
    _get_client w s1 = (Ok (Some c), s2) /\
    _get_client w' s2 = (Ok (Some c), s2).
Proof.
  intros w w'.
  destruct (memoized_per_instance w (start w)) as [Hload _].
  assert (H1 : _load_config_from_vault w (start w) =
               (Ok (Some (resolve_bundle w (start w))), loaded_state w (start w)))
    by apply load_run.
  assert (H2 : _get_client w (loaded_state w (start w)) =
               (Ok (Some (connection (resolve_bundle w (loaded_state w (start w)))
                                     (loaded_state w (loaded_state w (start w))))),
                connected_state w (loaded_state w (start w)))).
  { apply get_client_connects; [reflexivity| |by vm_compute].
    apply resolve_bundle_has_keys, inv_loaded, inv_start. }
  destruct (memoized_per_instance w (loaded_state w (start w))) as (_ & Hclient & _).
  eexists _, _, _, _.
  split; [exact H1|]. split; [exact (Hload _ _ H1 w')|].
  split; [exact H2|]. exact (Hclient _ _ H2 w').
Defined.

Lemma inv_after s evs : state_inv s -> state_inv (after s evs).
Proof. by intros H. Qed.

Lemma inv_generate template ext prompt sections s :
  state_inv s -> state_inv (snd (generate_content_with template ext prompt sections s)).
Proof.
  intros Hinv. rewrite generate_run.
  pose proof (inv_get_client ext _ (inv_loaded ext s Hinv)) as H2.
  destruct (_get_client ext (loaded_state ext s)) as [[client|e] s2]; cbn [snd] in H2;
    [|by apply inv_after].
  destruct (eval_fstring template); [|by apply inv_after].
  destruct client; [|by apply inv_after].
  destruct (getitem _ _); [|by apply inv_after].
  cbn zeta. destruct (chat_completions_create _ _ _); [|by do 2 apply inv_after].
  rewrite finish_generation_run.
  destruct (first_choice_text _); by do 2 apply inv_after.
Qed.

(** Whatever is raised inside [generate_content] leaves it wrapped. *)
Lemma generate_outcome template ext prompt sections s e' :
  fst (generate_content_with template ext prompt sections s) = Raise e' ->
  exists e, e' = generation_failed e.
Proof.
  unfold generate_content_with, try_except.
  match goal with |- context [bind ?c ?k s] => destruct (bind c k s) as [[r|e] s'] end.
  - discriminate.
  - cbn. intros [= <-]. by exists e.
Qed.

(** C2, as amended: a configuration error raised by connection construction does
    not leave [generate_content] unchanged.  Every exception raised
    inside, the configuration error included, is re-raised as a generic
    [Exception] whose message is ["Content generation failed: "] followed
    by the original message and whose context is the original exception.
    Nothing is retried: one call makes at most one API invocation. *)
Theorem generate_wraps_every_failure ext prompt sections s :
  (forall e s1, _get_client ext s = (Raise e, s1) ->
     fst (generate_content ext prompt sections s) = Raise (generation_failed e)) /\
  (forall e', fst (generate_content ext prompt sections s) = Raise e' ->
     exists e, e' = generation_failed e) /\
  (forall e, exc_class (generation_failed e) = "Exception" /\
             exc_msg (generation_failed e) = "Content generation failed: " +:+ str e /\
             exc_context (generation_failed e) = Some e) /\
  count is_api_call (trace (snd (generate_content ext prompt sections s)))
    <= count is_api_call (trace s) + 1.
Proof.
  unfold generate_content. split; [|split; [|split]].
  - intros e s1 Hraise. destruct (_client (self s)) as [c|] eqn:Hc.
    + rewrite (get_client_cached _ _ _ Hc) in Hraise. discriminate.
    + by rewrite generate_run, (get_client_at_loaded _ _ Hc), Hraise.
  - apply generate_outcome.
  - done.
  - unfold count.
    destruct (generate_trace is_api_call ltac:(done) ltac:(done) ltac:(done)
                system_prompt ext prompt sections s) as (_ & api & Hapi & ->).
    rewrite !List.filter_app, !length_app, load_events_no_api_call.
    destruct Hapi as [->|[request ->]]; cbn; lia.
Qed.

Lemma generate_wraps_every_failure_witness :
  let w := offline no_deployment_env "X" in
  exists e s1,
    _get_client w (start w) = (Raise e, s1) /\
    exc_class e = "ValueError" /\
    fst (generate_content w "Strategy & Resource Mobilization" None (start w)) =
      Raise (generation_failed e).
Proof.
  intros w.
  assert (H : _get_client w (start w) =
              (Raise (ValueError (missing_message (missing_fields (resolve_bundle w (start w))))),
               loaded_state w (start w)))
    by (apply get_client_missing; [reflexivity|by vm_compute]).
  eexists _, _. split; [exact H|]. split; [reflexivity|].
  exact (proj1 (generate_wraps_every_failure w "Strategy & Resource Mobilization"
                  None (start w)) _ _ H).
Defined.

(** C2 as stated fails: with the deployment missing, connection
    construction raises a [ValueError], and [generate_content] raises a
    different exception, of class [Exception], that wraps it. *)
Lemma configuration_error_is_wrapped :
  let w := offline no_deployment_env "X" in
  exists e e',
    fst (_get_client w (start w)) = Raise e /\
    exc_class e = "ValueError" /\
    fst (generate_content w "Strategy & Resource Mobilization" None (start w)) = Raise e' /\
    exc_class e' = "Exception" /\
    exc_context e' = Some e /\
    e' <> e.
Proof.
  intros w. eexists _, _.
  split; [by vm_compute|]. split; [reflexivity|].
  split; [by vm_compute|]. split; [reflexivity|]. split; [reflexivity|discriminate].
Qed.

Lemma system_prompt_raises : eval_fstring system_prompt = Raise bad_format_specifier.
Proof. by vm_compute. Qed.

(** What [generate_content] would return with a system prompt that
    formats to [sys]: the stripped text of the first choice, the token
    counts of the workspace block and of that text, and the system
    prompt, a newline and the raw prompt. *)
Lemma generate_with_well_formed_prompt template sys ext prompt sections s c s2 text rest :
  eval_fstring template = Ok sys ->
  _get_client ext (loaded_state ext s) = (Ok (Some c), s2) ->
  has_keys (resolve_bundle ext s) ->
  chat_completions_create ext c
    (chat_request (dict_get (resolve_bundle ext s) "deployment") sys prompt)
    = Ok {| choices := Some text :: rest |} ->
  fst (generate_content_with template ext prompt sections s) =
  Ok {| result_content := strip text;
        context_tokens := token_count ext (workspace_content sections);
        response_tokens := token_count ext (strip text);
        full_context := sys +:+ nl +:+ prompt |}.
Proof.
  intros Hsys Hclient Hk Hcall. rewrite generate_run, Hclient, Hsys.
  pose proof (getitem_has_keys _ Deployment Hk) as Hd. cbn [key] in Hd. rewrite Hd.
  cbn zeta. rewrite Hcall, finish_generation_run. reflexivity.
Qed.

(** C6 on the code as written: [system_prompt] is an f-string whose JSON
    braces are replacement fields, and formatting the first of them
    raises.  So [generate_content] never returns a result; in the
    end-to-end scenario, where the connection is built and the API would
    answer ["X"], it raises the wrapped format error and the API is not
    invoked. *)
Theorem generate_content_never_returns :
  (forall ext prompt sections s,
     is_ok (fst (generate_content ext prompt sections s)) = false) /\
  (let w := offline scenario_env "X" in
   let run := generate_content w "Strategy & Resource Mobilization" None (start w) in
   is_ok (fst (_get_client w (start w))) = true /\
   fst run = Raise (generation_failed bad_format_specifier) /\
   List.filter is_api_call (trace (snd run)) = []).
Proof.
  split.
  - intros ext prompt sections s. unfold generate_content.
    rewrite generate_run, system_prompt_raises.
    by destruct (_get_client ext (loaded_state ext s)) as [[client|e] s2].
  - by vm_compute.
Qed.

(** *** Further properties of resolution *)

Lemma loaded_state_key_vault_url ext s :
  key_vault_url (self (loaded_state ext s)) = key_vault_url (self s).
Proof. unfold loaded_state. by destruct (_config (self s)). Qed.

(** X1: [_load_config_from_vault] never raises, whatever the store and the
    environment do: it always returns a bundle and leaves it cached, does
    not touch the cached connection nor the stored location, and with a
    bundle already cached it returns that one and changes nothing. *)
Theorem resolve_never_raises ext s :
  exists d s',
    _load_config_from_vault ext s = (Ok (Some d), s') /\
    _config (self s') = Some d /\
    _client (self s') = _client (self s) /\
    key_vault_url (self s') = key_vault_url (self s) /\
    (forall d0, _config (self s) = Some d0 -> d = d0 /\ s' = s).
Proof.
  eexists _, _. split; [apply load_run|].
  split; [apply loaded_state_config|]. split; [apply loaded_state_client|].
  split; [apply loaded_state_key_vault_url|].
  intros d0 H. by rewrite (resolve_bundle_cached _ _ _ H), (loaded_state_cached _ _ _ H).
Qed.

Lemma fresh_bundle_cases ext s :
  _config (self s) = None ->
  resolve_bundle ext s = env_bundle ext s \/ resolve_bundle ext s = vault_bundle ext s.
Proof.
  intros Hc. unfold resolve_bundle. rewrite Hc.
  destruct (truthy (kv_url ext s)); [|by left].
  destruct (session ext _); [by right|by left].
Qed.

(** X2: a bundle that resolution has just built holds all four keys, so
    that subscripting it never raises [KeyError], and its API version is
    always a string: it can be empty only when
    [AZURE_OPENAI_API_VERSION] is set to the empty string. *)
Theorem resolved_bundle_has_a_version ext s d s' :
  _config (self s) = None ->
  _load_config_from_vault ext s = (Ok (Some d), s') ->
  (forall k, In k ["api_key"; "api_base"; "model_version"; "deployment"] ->
             getitem d k = Ok (dict_get d k)) /\
  exists v, dict_get d "model_version" = Some v /\
            (v = "" -> env ext !! "AZURE_OPENAI_API_VERSION" = Some "").
Proof.
  intros Hc. rewrite load_run. intros [= <- <-].
  assert (Hk : has_keys (resolve_bundle ext s)).
  { destruct (fresh_bundle_cases ext s Hc) as [-> | ->];
      [apply env_bundle_has_keys|apply vault_bundle_has_keys]. }
  split.
  - intros k [<-|[<-|[<-|[<-|[]]]]].
    + apply (getitem_has_keys _ ApiKey Hk).
    + apply (getitem_has_keys _ ApiBase Hk).
    + apply (getitem_has_keys _ ModelVersion Hk).
    + apply (getitem_has_keys _ Deployment Hk).
  - assert (Henv : exists v, env_get_default ext "AZURE_OPENAI_API_VERSION" "2024-02-01" = Some v
                             /\ (v = "" -> env ext !! "AZURE_OPENAI_API_VERSION" = Some "")).
    { unfold env_get_default. eexists. split; [reflexivity|].
      destruct (env ext !! "AZURE_OPENAI_API_VERSION") as [v|]; cbn; [by intros ->|done]. }
    destruct (fresh_bundle_cases ext s Hc) as [-> | ->].
    + by rewrite env_bundle_model_version.
    + rewrite vault_bundle_model_version. unfold or_.
      destruct (fetched ext "AzureOpenAiVersion") as [[|c v]|]; cbn; try exact Henv.
      eexists. split; [reflexivity|discriminate].
Qed.

Lemma resolved_bundle_has_a_version_witness :
  let w := online scenario_env one_missing_one_empty in
  _config (self (start w)) = None /\
  exists d s',
    _load_config_from_vault w (start w) = (Ok (Some d), s') /\
    getitem d "deployment" = Ok (dict_get d "deployment") /\
    exists v, dict_get d "model_version" = Some v /\
              (v = "" -> env w !! "AZURE_OPENAI_API_VERSION" = Some "").
Proof.
  intros w.
  assert (H1 : _config (self (start w)) = None) by reflexivity.
  assert (H2 : _load_config_from_vault w (start w) =
               (Ok (Some (resolve_bundle w (start w))), loaded_state w (start w)))
    by apply load_run.
  split; [exact H1|]. eexists _, _. split; [exact H2|].
  destruct (resolved_bundle_has_a_version w (start w) _ _ H1 H2) as [Hk Hv].
  split; [|exact Hv]. apply Hk. cbn. tauto.
Defined.

(** X3: a constructed client never has an empty location: whatever the
    environment held at construction and holds at resolution, its first
    resolution starts by asking for a credential, and so never takes the
    environment-only branch. *)
Theorem constructed_client_contacts_the_store ext0 ext t n :
  let s := {| self := __init__ ext0; trace := t; next_oid := n |} in
  truthy (key_vault_url (self s)) = true /\
  truthy (kv_url ext s) = true /\
  exists evs,
    trace (snd (_load_config_from_vault ext s)) = (t ++ CallDefaultAzureCredential :: evs)%list.
Proof.
  cbn zeta.
  assert (H0 : truthy (or_ (env_get ext0 "KEY_VAULT_URL") (Some default_key_vault_url)) = true).
  { unfold or_. by destruct (truthy (env_get ext0 "KEY_VAULT_URL")) eqn:H. }
  assert (H1 : truthy (kv_url ext {| self := __init__ ext0; trace := t; next_oid := n |})
               = true).
  { unfold kv_url, or_; cbn [self __init__ key_vault_url].
    by destruct (truthy (env_get ext "KEY_VAULT_URL")) eqn:H. }
  split; [exact H0|]. split; [exact H1|].
  rewrite load_run. cbn [snd]. rewrite loaded_state_trace. cbn [trace].
  unfold load_events. cbn [self __init__ _config]. rewrite H1.
  destruct (session ext _) eqn:Hs.
  - unfold vault_events. eexists. reflexivity.
  - unfold session_events. destruct (DefaultAzureCredential ext); eexists; reflexivity.
Qed.

(** X4: the location in the environment at resolution time wins over the
    one stored in the instance: when [KEY_VAULT_URL] is set and not empty
    and a credential is obtained, the session is opened at that URL. *)
Theorem environment_location_takes_precedence ext s u :
  _config (self s) = None ->
  env ext !! "KEY_VAULT_URL" = Some u ->
  u <> "" ->
  DefaultAzureCredential ext = Ok tt ->
  exists evs,
    trace (snd (_load_config_from_vault ext s)) =
    (trace s ++ CallDefaultAzureCredential :: CallSecretClient u :: evs)%list.
Proof.
  intros Hc Hu Hne Hcred.
  assert (Hurl : kv_url ext s = Some u).
  { unfold kv_url, or_, env_get. rewrite Hu. by destruct u. }
  rewrite load_run. cbn [snd]. rewrite loaded_state_trace.
  unfold load_events. rewrite Hc, Hurl. cbn [show].
  assert (truthy (Some u) = true) as -> by (by destruct u).
  destruct (session ext u) eqn:Hs.
  - unfold vault_events. eexists. reflexivity.
  - unfold session_events. rewrite Hcred. eexists. reflexivity.
Qed.

Lemma environment_location_takes_precedence_witness :
  let w := online (<["KEY_VAULT_URL" := "https://other.vault"]> scenario_env) all_stored in
  _config (self (start (offline scenario_env "X"))) = None /\
  env w !! "KEY_VAULT_URL" = Some "https://other.vault" /\
  "https://other.vault" <> "" /\
  DefaultAzureCredential w = Ok tt /\
  exists evs,
    trace (snd (_load_config_from_vault w (start (offline scenario_env "X")))) =
    (trace (start (offline scenario_env "X")) ++
     CallDefaultAzureCredential :: CallSecretClient "https://other.vault" :: evs)%list.
Proof.
  intros w.
  assert (H1 : _config (self (start (offline scenario_env "X"))) = None) by reflexivity.
  assert (H2 : env w !! "KEY_VAULT_URL" = Some "https://other.vault") by (by vm_compute).
  assert (H3 : "https://other.vault" <> "") by discriminate.
  assert (H4 : DefaultAzureCredential w = Ok tt) by reflexivity.
  repeat (split; [assumption|]).
  exact (environment_location_takes_precedence w _ _ H1 H2 H3 H4).
Defined.

(** *** Further properties of connection construction *)

(** A validation that raises leaves the state as it found it. *)
Lemma validate_and_connect_raises d s e s1 :
  validate_and_connect d s = (Raise e, s1) ->
  s1 = s /\ forall s2, validate_and_connect d s2 = (Raise e, s2).
Proof.
  unfold validate_and_connect, bind, lift, emit, modify, fresh_oid, set_client,
    gets, raise, ret.
  destruct (missing_fields d); [|by intros [= <- <-]].
  destruct (getitem d "api_base"); [|by intros [= <- <-]].
  destruct (getitem d "api_key"); [|by intros [= <- <-]].
  destruct (getitem d "model_version"); [|by intros [= <- <-]].
  discriminate.
Qed.

(** X5: a failed [_get_client] is final for the instance: the bundle it
    rejected stays cached, so every later call, in whatever world (a
    corrected environment, a store that answers now), raises the same
    error again, without contacting the store and without changing the
    state. *)
Theorem failed_connection_stays_failed ext s e s1 :
  _get_client ext s = (Raise e, s1) ->
  _client (self s1) = None /\
  (exists d, _config (self s1) = Some d) /\
  forall ext', _get_client ext' s1 = (Raise e, s1).
Proof.
  intros Hrun. destruct (_client (self s)) as [c|] eqn:Hc.
  { rewrite (get_client_cached _ _ _ Hc) in Hrun. discriminate. }
  rewrite (get_client_uncached _ _ Hc) in Hrun.
  destruct (validate_and_connect_raises _ _ _ _ Hrun) as [-> Hagain].
  assert (Hc1 : _client (self (loaded_state ext s)) = None)
    by (by rewrite loaded_state_client).
  split; [exact Hc1|]. split; [eexists; apply loaded_state_config|].
  intros ext'. rewrite (get_client_uncached _ _ Hc1).
  rewrite resolve_bundle_loaded, loaded_state_loaded. apply Hagain.
Qed.

Lemma failed_connection_stays_failed_witness :
  let w := offline no_deployment_env "X" in
  let w' := online scenario_env all_stored in
  exists e s1,
    _get_client w (start w) = (Raise e, s1) /\
    exc_class e = "ValueError" /\
    _get_client w' s1 = (Raise e, s1).
Proof.
  intros w w'.
  assert (H : _get_client w (start w) =
              (Raise (ValueError (missing_message (missing_fields (resolve_bundle w (start w))))),
               loaded_state w (start w)))
    by (apply get_client_missing; [reflexivity|by vm_compute]).
  eexists _, _. split; [exact H|]. split; [reflexivity|].
  exact (proj2 (proj2 (failed_connection_stays_failed w (start w) _ _ H)) w').
Defined.

(** X6: once a bundle is cached, [_get_client] does not look at the
    environment or the store any more: its result and the state it leaves
    are the same in every world, and it adds no secret-store event. *)
Theorem cached_bundle_decides_connection ext ext' s d :
  _config (self s) = Some d ->
  _get_client ext s = _get_client ext' s /\
  List.filter is_store_event (trace (snd (_get_client ext s))) =
    List.filter is_store_event (trace s) /\
  _config (self (snd (_get_client ext s))) = Some d.
Proof.
  intros Hd. split.
  - destruct (_client (self s)) as [c|] eqn:Hc.
    + by rewrite !(get_client_cached _ _ _ Hc).
    + rewrite !(get_client_uncached _ _ Hc), !(resolve_bundle_cached _ _ _ Hd),
        !(loaded_state_cached _ _ _ Hd). reflexivity.
  - by apply (get_client_keeps is_store_event).
Qed.

Lemma cached_bundle_decides_connection_witness :
  let w := offline scenario_env "X" in
  let w' := online no_deployment_env one_missing_one_empty in
  let s := snd (_load_config_from_vault w (start w)) in
  (exists d, _config (self s) = Some d) /\
  _get_client w s = _get_client w' s /\
  is_ok (fst (_get_client w' s)) = true.
Proof.
  intros w w' s.
  assert (H : _config (self s) = Some (resolve_bundle w (start w))).
  { unfold s. rewrite load_run. apply loaded_state_config. }
  split; [by eexists|].
  split; [exact (proj1 (cached_bundle_decides_connection w w' s _ H))|].
  by vm_compute.
Defined.

(** X7: the instance invariant.  Whenever a connection is cached, a bundle
    is cached too, it is complete, and the connection is bound to its
    endpoint, key and API version; and a cached bundle holds all four
    keys.  This holds for a constructed client and is kept by each of the
    three methods, whether they return or raise. *)
Theorem instance_invariant ext :
  state_inv (start ext) /\
  forall s, state_inv s ->
    state_inv (snd (_load_config_from_vault ext s)) /\
    state_inv (snd (_get_client ext s)) /\
    forall prompt sections, state_inv (snd (generate_content ext prompt sections s)).
Proof.
  split; [apply inv_start|]. intros s Hinv. split; [|split].
  - rewrite load_run. by apply inv_loaded.
  - by apply inv_get_client.
  - intros prompt sections. by apply inv_generate.
Qed.

Lemma instance_invariant_witness :
  let w := offline scenario_env "X" in
  state_inv (start w) /\
  state_inv (snd (generate_content w "Q" None (snd (_get_client w (start w))))).
Proof.
  intros w. destruct (instance_invariant w) as [H0 Hstep].
  split; [exact H0|].
  apply (Hstep _ (proj1 (proj2 (Hstep _ H0)))).
Defined.

(** *** Further properties of generation and token accounting *)

(** X8: [generate_content] raises, yet it leaves its work cached: the
    resolved bundle always, and the connection, bound to that bundle,
    whenever the bundle is complete; with an incomplete bundle no
    connection is cached. *)
Theorem generate_content_still_caches ext prompt sections s d :
  state_inv s ->
  fst (_load_config_from_vault ext s) = Ok (Some d) ->
  let s' := snd (generate_content ext prompt sections s) in
  _config (self s') = Some d /\
  (missing_fields d = [] -> exists c, _client (self s') = Some c /\ bound c d) /\
  (missing_fields d <> [] -> _client (self s') = None).
Proof.
  intros Hinv. rewrite load_run. cbn [fst]. intros [= <-]. cbn zeta.
  unfold generate_content. rewrite generate_run, system_prompt_raises.
  pose proof (inv_loaded ext s Hinv) as Hinv1.
  pose proof (resolve_bundle_has_keys ext _ Hinv1) as Hk.
  rewrite resolve_bundle_loaded in Hk.
  assert (Hs2 : exists r s2, _get_client ext (loaded_state ext s) = (r, s2) /\
            _config (self s2) = Some (resolve_bundle ext s) /\
            (missing_fields (resolve_bundle ext s) = [] ->
             exists c, _client (self s2) = Some c /\ bound c (resolve_bundle ext s)) /\
            (missing_fields (resolve_bundle ext s) <> [] -> _client (self s2) = None)).
  { destruct (_client (self (loaded_state ext s))) as [c|] eqn:Hc.
    - eexists _, _. split; [by apply get_client_cached|].
      split; [apply loaded_state_config|].
      destruct Hinv1 as [_ H2]. destruct (H2 c Hc) as (d & Hd & Hm & Hb).
      rewrite loaded_state_config in Hd. injection Hd as <-.
      split; [intros _; by exists c|by intros []].
    - destruct (missing_fields (resolve_bundle ext s)) eqn:Hm.
      + eexists _, _. split.
        { apply get_client_connects; [done| |]; by rewrite resolve_bundle_loaded. }
        unfold connected_state, with_client; cbn [self _config _client].
        rewrite loaded_state_loaded, loaded_state_config, resolve_bundle_loaded.
        split; [done|]. split; [|done]. intros _. eexists. split; [reflexivity|].
        by repeat split.
      + eexists _, _. split.
        { apply get_client_missing; [done|]. by rewrite resolve_bundle_loaded, Hm. }
        rewrite loaded_state_loaded, loaded_state_config. split; [done|].
        split; [discriminate|]. intros _. exact Hc. }
  destruct Hs2 as (r & s2 & -> & Hcfg & Hok & Hmiss).
  by destruct r as [client|e].
Qed.

Lemma generate_content_still_caches_witness :
  let w := offline scenario_env "X" in
  state_inv (start w) /\
  exists d,
    fst (_load_config_from_vault w (start w)) = Ok (Some d) /\
    let s' := snd (generate_content w "Q" None (start w)) in
    _config (self s') = Some d /\
    exists c, _client (self s') = Some c /\ bound c d.
Proof.
  intros w.
  assert (H : fst (_load_config_from_vault w (start w)) =
              Ok (Some (resolve_bundle w (start w)))) by (by rewrite load_run).
  split; [apply inv_start|]. eexists. split; [exact H|].
  destruct (generate_content_still_caches w "Q" None (start w) _ (inv_start w) H)
    as (Hc & Hok & _).
  split; [exact Hc|]. apply Hok. by vm_compute.
Defined.

(** X9: every [generate_content] call ends by logging one ERROR line that
    carries the text of the exception it wraps: the raised exception is
    [Exception("Content generation failed: " + str(e))] and the last event
    of the call is the log line for the same [e]. *)
Theorem generate_content_logs_its_failure ext prompt sections s :
  exists e,
    fst (generate_content ext prompt sections s) = Raise (generation_failed e) /\
    last (trace (snd (generate_content ext prompt sections s))) =
      Some (Log ERROR ("Error generating content with Azure OpenAI: " +:+ str e)).
Proof.
  unfold generate_content. rewrite generate_run, system_prompt_raises.
  destruct (_get_client ext (loaded_state ext s)) as [[client|e] s2];
    eexists; (split; [reflexivity|]); unfold failed; cbn [snd];
    rewrite trace_after; apply last_snoc.
Qed.

(** X10: [count_tokens] leaves the client instance alone; it logs one
    warning exactly when it falls back, and the fallback estimate [n] of a
    text of [len] characters satisfies [4 * n <= len < 4 * n + 4]. *)
Theorem count_tokens_effects ext text model_name s :
  let r := fst (count_tokens ext text model_name s) in
  let s' := snd (count_tokens ext text model_name s) in
  self s' = self s /\
  (forall tokens, tokenize ext model_name text = Ok tokens ->
     List.filter (fun e => match e with Log _ _ => true | _ => false end) (trace s') =
     List.filter (fun e => match e with Log _ _ => true | _ => false end) (trace s)) /\
  (forall e, tokenize ext model_name text = Raise e ->
     trace s' = (trace s ++ [CallEncodingForModel model_name;
                 Log WARNING ("Failed to count tokens with tiktoken: " +:+ str e)])%list /\
     exists n, r = Ok n /\ 4 * n <= String.length text /\ String.length text < 4 * n + 4).
Proof.
  cbn zeta. rewrite count_tokens_run.
  destruct (tokenize ext model_name text) as [toks|e]; cbn [fst snd].
  - split; [done|]. split; [|discriminate]. intros _ _.
    rewrite trace_after, List.filter_app. cbn. by rewrite app_nil_r.
  - split; [done|]. split; [discriminate|]. intros e' [= <-].
    split; [apply trace_after|]. eexists. split; [reflexivity|].
    pose proof (Nat.div_mod_eq (String.length text) 4) as Hd.
    pose proof (Nat.mod_upper_bound (String.length text) 4) as Hm.
    change (String.length text `div` 4) with (Nat.div (String.length text) 4).
    lia.
Qed.

Lemma count_tokens_effects_witness :
  let w := online scenario_env all_stored in
  tokenize w default_model "abcdefghij" = Raise (KeyError "no tokenizer") /\
  fst (count_tokens w "abcdefghij" default_model (start w)) = Ok 2 /\
  4 * 2 <= String.length "abcdefghij" /\ String.length "abcdefghij" < 4 * 2 + 4.
Proof.
  intros w.
  assert (H : tokenize w default_model "abcdefghij" = Raise (KeyError "no tokenizer"))
    by reflexivity.
  split; [exact H|].
  destruct (count_tokens_effects w "abcdefghij" default_model (start w))
    as (_ & _ & Hfail).
  destruct (Hfail _ H) as (_ & n & Hn & Hlo & Hhi).
  assert (n = 2) as -> by (vm_compute in Hn; congruence).
  repeat split; assumption.
Defined.

Lemma string_app_assoc (a b c : string) : (a +:+ b) +:+ c = a +:+ (b +:+ c).
Proof.
  induction a as [|x a IH]; [reflexivity|].
  change (String x ((a +:+ b) +:+ c) = String x (a +:+ (b +:+ c))). by rewrite IH.
Qed.

Lemma string_app_nil_r (a : string) : a +:+ "" = a.
Proof.
  induction a as [|x a IH]; [reflexivity|].
  change (String x (a +:+ "") = String x a). by rewrite IH.
Qed.

Lemma render_sections_numbered sections i acc :
  render_sections i sections acc = acc +:+ numbered i sections.
Proof.
  revert i acc. induction sections as [|x l IH]; intros i acc; cbn [render_sections numbered].
  - by rewrite string_app_nil_r.
  - rewrite IH, !string_app_assoc. reflexivity.
Qed.

Lemma numbered_app l1 l2 i :
  numbered i (l1 ++ l2) = numbered i l1 +:+ numbered (i + length l1) l2.
Proof.
  revert i. induction l1 as [|x l1 IH]; intros i; cbn [app numbered length].
  - by rewrite Nat.add_0_r.
  - rewrite IH, !string_app_assoc. by rewrite Nat.add_succ_r.
Qed.

(** X11: the workspace block is empty for no sections ([None] or an empty
    list); otherwise it is the header followed by one block per section,
    in order and numbered from 1, and further sections only append their
    blocks, continuing the numbering. *)
Theorem workspace_content_blocks :
  workspace_content None = "" /\
  workspace_content (Some []) = "" /\
  (forall x l,
     workspace_content (Some (x :: l)) =
     nl +:+ "=== CONTENT SECTIONS ===" +:+ nl +:+ numbered 1 (x :: l)) /\
  (forall (x : string) l more,
     workspace_content (Some ((x :: l) ++ more)%list) =
     workspace_content (Some (x :: l)) +:+ numbered (2 + length l) more).
Proof.
  assert (H : forall x l, workspace_content (Some (x :: l)) =
                nl +:+ "=== CONTENT SECTIONS ===" +:+ nl +:+ numbered 1 (x :: l)).
  { intros x l. unfold workspace_content. rewrite render_sections_numbered.
    cbn [String.append]. by rewrite !string_app_assoc. }
  repeat split; [exact H|].
  intros x l more. change ((x :: l) ++ more)%list with (x :: (l ++ more))%list.
  rewrite !H. change (x :: (l ++ more))%list with ((x :: l) ++ more)%list.
  rewrite numbered_app, !string_app_assoc. reflexivity.
Qed.

Lemma lstrip_first s c : first_char (lstrip s) = Some c -> isspace c = false.
Proof.
  induction s as [|x s IH]; [discriminate|]. cbn [lstrip].
  destruct (isspace x) eqn:Hx; [exact IH|]. cbn. by intros [= <-].
Qed.

Lemma rstrip_last s c : last_char (rstrip s) = Some c -> isspace c = false.
Proof.
  induction s as [|x s IH]; [discriminate|]. cbn [rstrip].
  destruct (rstrip s) as [|y r] eqn:Hr.
  - destruct (isspace x) eqn:Hx; [discriminate|]. cbn. by intros [= <-].
  - exact IH.
Qed.

Lemma rstrip_first s c : first_char (rstrip s) = Some c -> first_char s = Some c.
Proof.
  destruct s as [|x s]; [discriminate|]. cbn [rstrip].
  destruct (rstrip s); [destruct (isspace x)|]; [discriminate|done..].
Qed.

Lemma lstrip_fixed s :
  (forall c, first_char s = Some c -> isspace c = false) -> lstrip s = s.
Proof.
  destruct s as [|x s]; [reflexivity|]. intros H. cbn. by rewrite (H x).
Qed.

Lemma rstrip_fixed s :
  (forall c, last_char s = Some c -> isspace c = false) -> rstrip s = s.
Proof.
  induction s as [|x s IH]; [reflexivity|]. intros H. cbn [rstrip].
  destruct s as [|y s].
  - cbn. by rewrite (H x).
  - rewrite IH by exact H. reflexivity.
Qed.

(** X12: the generated text is the first choice's content with surrounding
    whitespace removed: further choices are ignored, the text neither
    starts nor ends with a whitespace character, and stripping it again
    changes nothing; a response without choices raises [IndexError] and a
    first choice without content raises [AttributeError]. *)
Theorem first_choice_is_trimmed response :
  match choices response with
  | [] => first_choice_text response = Raise (IndexError "list index out of range")
  | None :: _ =>
      first_choice_text response =
      Raise (AttributeError "'NoneType' object has no attribute 'strip'")
  | Some raw :: _ =>
      exists text,
        first_choice_text response = Ok text /\ text = strip raw /\
        (forall c, first_char text = Some c -> isspace c = false) /\
        (forall c, last_char text = Some c -> isspace c = false) /\
        strip text = text
  end.
Proof.
  unfold first_choice_text. destruct (choices response) as [|[raw|] rest]; [done| |done].
  eexists. split; [reflexivity|]. split; [reflexivity|].
  assert (H1 : forall c, first_char (strip raw) = Some c -> isspace c = false).
  { intros c H. apply rstrip_first in H. by apply lstrip_first in H. }
  assert (H2 : forall c, last_char (strip raw) = Some c -> isspace c = false).
  { intros c. apply rstrip_last. }
  split; [exact H1|]. split; [exact H2|].
  unfold strip at 1. rewrite (lstrip_fixed _ H1). by apply rstrip_fixed.
Qed.

End LlmProps.

(** ** Properties of the capability store *)
Module CapabilityRepositoryProps.
Import CapabilityRepository CapabilityRepositoryObs.

Example create_then_fetch :
  let db := snd (create_capability "Performance & Assurance" "Monitoring" one_capability) in
  fst (fetch_all_capabilities db) =
    Ok [strategy;
        {| id := 2; name := "Performance & Assurance"; description := "Monitoring";
           deleted_at := None; processes := [] |}] /\
  fst (fetch_by_id 2 db) =
    Ok (Some {| id := 2; name := "Performance & Assurance"; description := "Monitoring";
                deleted_at := None; processes := [] |}) /\
  fst (fetch_by_id 3 db) = Ok None.
Proof. by vm_compute. Qed.

Example update_then_fetch :
  let db := snd (update_capability 1 None (Some "Funding") one_capability) in
  fst (fetch_by_id 1 db) =
    Ok (Some {| id := 1; name := "Strategy & Resource Mobilization";
                description := "Funding"; deleted_at := None; processes := [7; 8]%Z |}) /\
  fst (update_capability 5 (Some "x") None one_capability) = Ok None.
Proof. by vm_compute. Qed.

Lemma length_filter_positive {A} (p : A -> bool) (l : list A) :
  (0 <? length (List.filter p l))%nat = existsb p l.
Proof.
  induction l as [|a l IH]; [reflexivity|]. cbn. destruct (p a); [reflexivity|exact IH].
Qed.

(** [delete_capability] reports whether a row with the id was stored,
    soft-deleted or not. *)
Lemma delete_reports_existence capability_id db :
  fst (delete_capability capability_id db) = Ok (existsb (has_id capability_id) (rows db)).
Proof.
  unfold delete_capability, bind, filter_delete, ret, fst.
  by rewrite length_filter_positive.
Qed.

(** After [delete_capability] no row with the id is left in storage. *)
Lemma delete_removes_rows capability_id db c :
  In c (rows (snd (delete_capability capability_id db))) -> id c <> capability_id.
Proof.
  unfold delete_capability, bind, filter_delete, ret; cbn.
  rewrite List.filter_In, negb_true_iff. unfold has_id. intros [_ H].
  by apply Z.eqb_neq.
Qed.

Lemma fetch_by_id_missing capability_id db :
  (forall c, In c (rows db) -> id c <> capability_id) ->
  fst (fetch_by_id capability_id db) = Ok None.
Proof.
  intros H. unfold fetch_by_id, try_except_of, bind, Capability_get.
  assert (List.filter (fun c => has_id capability_id c && live c) (rows db) = []) as ->;
    [|reflexivity].
  induction (rows db) as [|c l IH]; [reflexivity|]. cbn.
  assert (has_id capability_id c = false) as ->
    by (apply Z.eqb_neq, H; by left).
  cbn. apply IH. intros c' Hc'. apply H. by right.
Qed.

Lemma fetch_all_is_live_rows db :
  fst (fetch_all_capabilities db) = Ok (List.filter live (rows db)).
Proof. reflexivity. Qed.

(** C9 on the code as written: [delete_capability] returns [True]
    exactly when a row with the id was stored, and afterwards the record
    is excluded from both fetches, but because its row has been removed
    from the table, not because it was marked deleted.  In a store
    holding the single capability 1, deleting it leaves an empty table. *)
Theorem delete_removes_the_record :
  (forall capability_id db,
     let after_delete := snd (delete_capability capability_id db) in
     fst (delete_capability capability_id db) =
       Ok (existsb (has_id capability_id) (rows db)) /\
     fst (fetch_by_id capability_id after_delete) = Ok None /\
     (forall c, In c (List.filter live (rows after_delete)) -> id c <> capability_id) /\
     (forall c, In c (rows after_delete) -> id c <> capability_id)) /\
  delete_capability 1 one_capability = (Ok true, {| rows := []; next_id := 2 |}) /\
  fst (fetch_by_id 1 one_capability) = Ok (Some strategy).
Proof.
  split; [|by vm_compute].
  intros capability_id db after_delete.
  split; [apply delete_reports_existence|].
  split; [apply fetch_by_id_missing, delete_removes_rows|].
  split; [|apply delete_removes_rows].
  intros c Hc. apply List.filter_In in Hc as [Hc _]. by eapply delete_removes_rows.
Qed.

(** *** Further properties of the store operations *)

Lemma has_id_eq i c : has_id i c = true <-> id c = i.
Proof. unfold has_id. apply Z.eqb_eq. Qed.

Lemma has_id_neq i c : has_id i c = false <-> id c <> i.
Proof. unfold has_id. apply Z.eqb_neq. Qed.

(** With unique keys at most one row matches an id. *)
Lemma filter_live_find l i :
  NoDup (List.map id l) ->
  List.filter (fun c => has_id i c && live c) l =
  match List.find (fun c => has_id i c && live c) l with
  | Some c => [c]
  | None => []
  end.
Proof.
  induction l as [|c l IH]; [reflexivity|]. cbn [List.map List.filter List.find].
  intros Hnd. apply NoDup_cons in Hnd as [Hnotin Hnd].
  rewrite list_elem_of_In in Hnotin.
  destruct (has_id i c && live c) eqn:Hp; [|by apply IH].
  f_equal. apply andb_true_iff in Hp as [Hi _]. apply has_id_eq in Hi.
  assert (Hnone : forall l', (forall c', In c' l' -> id c' <> i) ->
            List.filter (fun c => has_id i c && live c) l' = []).
  { induction l' as [|c' l' IH']; [reflexivity|]. intros H. cbn.
    assert (has_id i c' = false) as -> by (apply has_id_neq, H; by left).
    cbn. apply IH'. intros c'' Hc''. apply H. by right. }
  apply Hnone. intros c' Hc' Heq. apply Hnotin.
  rewrite Hi, <- Heq. by apply List.in_map.
Qed.

Lemma fetch_by_id_well_keyed i db :
  NoDup (ids db) -> fetch_by_id i db = (Ok (live_row i db), db).
Proof.
  intros Hnd. unfold fetch_by_id, try_except_of, bind, Capability_get, live_row.
  rewrite (filter_live_find _ i Hnd).
  by destruct (List.find _ (rows db)).
Qed.

Lemma live_row_spec i db c :
  live_row i db = Some c -> In c (rows db) /\ id c = i /\ deleted_at c = None.
Proof.
  unfold live_row. intros H. apply List.find_some in H as [Hin Hp].
  apply andb_true_iff in Hp as [Hi Hl]. apply has_id_eq in Hi.
  repeat split; [done..|]. unfold live in Hl. by destruct (deleted_at c).
Qed.

(** Two states of the table with the same live rows of id [j] answer
    [fetch_by_id j] alike. *)
Lemma fetch_by_id_same_rows j db db' :
  List.filter (fun c => has_id j c && live c) (rows db') =
  List.filter (fun c => has_id j c && live c) (rows db) ->
  fst (fetch_by_id j db') = fst (fetch_by_id j db).
Proof.
  intros H. unfold fetch_by_id, try_except_of, bind, Capability_get. rewrite H.
  destruct (List.filter _ (rows db)) as [|c [|c' l]]; reflexivity.
Qed.

Lemma fetch_by_id_reads_only i db : snd (fetch_by_id i db) = db.
Proof.
  unfold fetch_by_id, try_except_of, bind, Capability_get.
  destruct (List.filter _ (rows db)) as [|c [|c' l]]; reflexivity.
Qed.

Lemma fetch_by_id_sound i db c :
  fst (fetch_by_id i db) = Ok (Some c) ->
  In c (rows db) /\ id c = i /\ deleted_at c = None /\
  (exists l, fst (fetch_all_capabilities db) = Ok l /\ In c l) /\
  snd (fetch_by_id i db) = db.
Proof.
  intros H.
  assert (Hc : In c (List.filter (fun c => has_id i c && live c) (rows db))).
  { revert H. unfold fetch_by_id, try_except_of, bind, Capability_get.
    destruct (List.filter _ (rows db)) as [|c0 [|c1 l]]; cbn; try discriminate.
    intros [= <-]. by left. }
  apply List.filter_In in Hc as [Hin Hp].
  apply andb_true_iff in Hp as [Hi Hl]. apply has_id_eq in Hi.
  split; [done|]. split; [done|].
  split; [unfold live in Hl; by destruct (deleted_at c)|].
  split; [|apply fetch_by_id_reads_only].
  eexists. split; [reflexivity|]. apply List.filter_In. by split.
Qed.

(** X13: whatever [fetch_by_id] returns is a stored row with the requested
    id and no soft-delete marker, one that [fetch_all_capabilities] lists
    too; and the table is left as it was. *)
Theorem fetch_by_id_returns_live_row i db c :
  fst (fetch_by_id i db) = Ok (Some c) ->
  In c (rows db) /\ id c = i /\ deleted_at c = None /\
  (exists l, fst (fetch_all_capabilities db) = Ok l /\ In c l) /\
  snd (fetch_by_id i db) = db.
Proof. exact (fetch_by_id_sound i db c). Qed.

Lemma fetch_by_id_returns_live_row_witness :
  fst (fetch_by_id 1 two_capabilities) = Ok (Some strategy) /\
  In strategy (rows two_capabilities) /\ id strategy = 1%Z /\
  deleted_at strategy = None /\
  (exists l, fst (fetch_all_capabilities two_capabilities) = Ok l /\ In strategy l) /\
  snd (fetch_by_id 1 two_capabilities) = two_capabilities.
Proof.
  assert (H : fst (fetch_by_id 1 two_capabilities) = Ok (Some strategy)) by reflexivity.
  split; [exact H|]. exact (fetch_by_id_returns_live_row 1 two_capabilities strategy H).
Defined.

Lemma fetch_by_id_iff i db :
  NoDup (ids db) ->
  is_ok (fst (fetch_by_id i db)) = true /\
  forall c, fst (fetch_by_id i db) = Ok (Some c) <->
            In c (rows db) /\ id c = i /\ deleted_at c = None.
Proof.
  intros Hnd. rewrite (fetch_by_id_well_keyed _ _ Hnd). cbn [fst is_ok].
  split; [done|]. intros c. split.
  - intros [= H]. by apply live_row_spec.
  - intros (Hin & Hi & Hl). f_equal.
    assert (Hp : has_id i c && live c = true).
    { apply andb_true_iff. split; [by apply has_id_eq|]. unfold live. by rewrite Hl. }
    assert (Hf : In c (List.filter (fun c => has_id i c && live c) (rows db)))
      by (apply List.filter_In; by split).
    rewrite (filter_live_find _ i Hnd) in Hf. unfold live_row.
    destruct (List.find _ (rows db)) as [c'|]; [|destruct Hf].
    destruct Hf as [->|[]]. reflexivity.
Qed.



Lemma two_capabilities_well_keyed : well_keyed two_capabilities.
Proof.
  split.
  - unfold ids; cbn. apply NoDup_cons. split; [|apply NoDup_singleton].
    rewrite list_elem_of_In. intros [H|[]]. discriminate H.
  - unfold ids; cbn. repeat constructor.
Qed.

(** The table after [obj.save()]. *)
Lemma save_ids obj l :
  List.map id (List.map (fun c => if has_id (id obj) c then obj else c) l) = List.map id l.
Proof.
  induction l as [|c l IH]; [reflexivity|]. cbn. rewrite IH. f_equal.
  destruct (has_id (id obj) c) eqn:H; [|reflexivity]. symmetry. by apply has_id_eq.
Qed.

Lemma save_other_rows obj j l :
  id obj <> j ->
  List.filter (fun c => has_id j c && live c)
    (List.map (fun c => if has_id (id obj) c then obj else c) l) =
  List.filter (fun c => has_id j c && live c) l.
Proof.
  intros Hne. induction l as [|c l IH]; [reflexivity|]. cbn. rewrite IH.
  destruct (has_id (id obj) c) eqn:H; [|reflexivity].
  apply has_id_eq in H.
  assert (has_id j obj = false) as -> by (by apply has_id_neq).
  assert (has_id j c = false) as -> by (apply has_id_neq; congruence).
  reflexivity.
Qed.

Lemma save_finds obj l c :
  live obj = true ->
  List.find (fun c => has_id (id obj) c && live c) l = Some c ->
  List.find (fun c => has_id (id obj) c && live c)
    (List.map (fun c => if has_id (id obj) c then obj else c) l) = Some obj.
Proof.
  intros Hlive. induction l as [|r l IH]; [discriminate|]. cbn.
  assert (Hobj : has_id (id obj) obj && live obj = true).
  { apply andb_true_iff. split; [by apply has_id_eq|done]. }
  destruct (has_id (id obj) r) eqn:Hr; cbn.
  - rewrite Hobj. done.
  - rewrite Hr. cbn. apply IH.
Qed.

(** With a unique key, writing back the row that was read changes nothing. *)
Lemma save_same_row l c :
  NoDup (List.map id l) -> In c l ->
  List.map (fun r => if has_id (id c) r then c else r) l = l.
Proof.
  induction l as [|r l IH]; [reflexivity|]. cbn [List.map].
  intros Hnd Hin. apply NoDup_cons in Hnd as [Hnotin Hnd].
  rewrite list_elem_of_In in Hnotin.
  destruct Hin as [->|Hin].
  - assert (has_id (id c) c = true) as -> by (by apply has_id_eq). f_equal.
    clear IH Hnd. induction l as [|r l IH]; [reflexivity|]. cbn.
    assert (has_id (id c) r = false) as ->.
    { apply has_id_neq. intros Heq. apply Hnotin. cbn. left. done. }
    f_equal. apply IH. intros H. apply Hnotin. by right.
  - assert (has_id (id c) r = false) as ->.
    { apply has_id_neq. intros Heq. apply Hnotin. rewrite Heq. by apply List.in_map. }
    f_equal. by apply IH.
Qed.

Lemma update_run i name_ description_ db :
  update_capability i name_ description_ db =
  match fetch_by_id i db with
  | (Ok (Some obj), db1) =>
      (Ok (Some (updated obj name_ description_)),
       {| rows := List.map (fun c => if has_id (id obj) c
                                     then updated obj name_ description_ else c) (rows db1);
          next_id := next_id db1 |})
  | (Ok None, db1) => (Ok None, db1)
  | (Raise e, db1) => (Raise e, db1)
  end.
Proof.
  unfold update_capability, bind at 1.
  destruct (fetch_by_id i db) as [[[obj|]|e] db1]; [|reflexivity..].
  destruct obj, name_, description_; reflexivity.
Qed.

Lemma update_unknown i name_ description_ db :
  (fst (fetch_by_id i db) = Ok None ->
   update_capability i name_ description_ db = (Ok None, db)) /\
  (forall e, fst (fetch_by_id i db) = Raise e ->
   update_capability i name_ description_ db = (Raise e, db)).
Proof.
  rewrite update_run. pose proof (fetch_by_id_reads_only i db) as Hs.
  destruct (fetch_by_id i db) as [r db1]. cbn [fst snd] in *. subst db1.
  split.
  - by intros ->.
  - by intros e ->.
Qed.

(** X15: [update_capability] on an id that [fetch_by_id] does not find (no
    such row, or a soft-deleted one) returns [None] and writes nothing;
    when [fetch_by_id] raises, so does the update, and nothing is written
    either. *)
Theorem update_of_unknown_changes_nothing i name_ description_ db :
  (fst (fetch_by_id i db) = Ok None ->
   update_capability i name_ description_ db = (Ok None, db)) /\
  (forall e, fst (fetch_by_id i db) = Raise e ->
   update_capability i name_ description_ db = (Raise e, db)).
Proof. exact (update_unknown i name_ description_ db). Qed.

Lemma update_of_unknown_changes_nothing_witness :
  fst (fetch_by_id 2 two_capabilities) = Ok None /\
  update_capability 2 (Some "Renamed") None two_capabilities = (Ok None, two_capabilities).
Proof.
  assert (H : fst (fetch_by_id 2 two_capabilities) = Ok None) by reflexivity.
  split; [exact H|].
  exact (proj1 (update_of_unknown_changes_nothing 2 (Some "Renamed") None two_capabilities) H).
Defined.

(** X16: with unique primary keys, a successful [update_capability] returns
    the record with only the given fields replaced (id, soft-delete marker
    and processes kept), a following [fetch_by_id] returns exactly that
    record, and the table keeps its keys, their order and its size. *)
Theorem update_then_fetch_by_id i name_ description_ db obj :
  well_keyed db ->
  fst (fetch_by_id i db) = Ok (Some obj) ->
  let obj' := {| id := id obj;
                 name := default (name obj) name_;
                 description := default (description obj) description_;
                 deleted_at := deleted_at obj;
                 processes := processes obj |} in
  let db' := snd (update_capability i name_ description_ db) in
  fst (update_capability i name_ description_ db) = Ok (Some obj') /\
  fst (fetch_by_id i db') = Ok (Some obj') /\
  ids db' = ids db /\
  next_id db' = next_id db /\
  well_keyed db'.
Proof.
  intros [Hnd Hlt] Hf. cbn zeta.
  rewrite (fetch_by_id_well_keyed _ _ Hnd) in Hf. cbn [fst] in Hf. injection Hf as Hrow.
  destruct (live_row_spec _ _ _ Hrow) as (Hin & Hid & Hlive).
  rewrite update_run, (fetch_by_id_well_keyed _ _ Hnd), Hrow. cbn [fst snd].
  fold (updated obj name_ description_). set (obj' := updated obj name_ description_).
  assert (Hids : ids {| rows := List.map (fun c => if has_id (id obj) c then obj' else c)
                                         (rows db);
                        next_id := next_id db |} = ids db)
    by apply (save_ids obj').
  split; [done|]. split; [|split; [done|split; [done|]]].
  - rewrite fetch_by_id_well_keyed by (by rewrite Hids).
    cbn [fst]. f_equal. unfold live_row in *; cbn [rows]. subst i.
    apply (save_finds obj' (rows db) obj).
    + unfold live, obj'; cbn. by rewrite Hlive.
    + exact Hrow.
  - split; rewrite Hids; done.
Qed.

Lemma update_then_fetch_by_id_witness :
  well_keyed two_capabilities /\
  fst (fetch_by_id 1 two_capabilities) = Ok (Some strategy) /\
  let obj' := {| id := 1; name := "Strategy"; description := "Mobilizing resources";
                 deleted_at := None; processes := [7; 8]%Z |} in
  let db' := snd (update_capability 1 (Some "Strategy") None two_capabilities) in
  fst (update_capability 1 (Some "Strategy") None two_capabilities) = Ok (Some obj') /\
  fst (fetch_by_id 1 db') = Ok (Some obj') /\
  ids db' = ids two_capabilities /\
  next_id db' = next_id two_capabilities /\
  well_keyed db'.
Proof.
  assert (H : fst (fetch_by_id 1 two_capabilities) = Ok (Some strategy)) by reflexivity.
  split; [exact two_capabilities_well_keyed|]. split; [exact H|].
  exact (update_then_fetch_by_id 1 (Some "Strategy") None two_capabilities strategy
           two_capabilities_well_keyed H).
Defined.

(** X17: with unique primary keys, [update_capability] with neither a name
    nor a description returns the record as it is and leaves the table
    unchanged. *)
Theorem update_without_fields_is_identity i db obj :
  NoDup (ids db) ->
  fst (fetch_by_id i db) = Ok (Some obj) ->
  update_capability i None None db = (Ok (Some obj), db).
Proof.
  intros Hnd Hf.
  rewrite (fetch_by_id_well_keyed _ _ Hnd) in Hf. cbn [fst] in Hf. injection Hf as Hrow.
  destruct (live_row_spec _ _ _ Hrow) as (Hin & Hid & Hlive).
  rewrite update_run, (fetch_by_id_well_keyed _ _ Hnd), Hrow.
  assert (updated obj None None = obj) as -> by (by destruct obj).
  rewrite (save_same_row _ _ Hnd Hin). by destruct db.
Qed.

Lemma update_without_fields_is_identity_witness :
  NoDup (ids two_capabilities) /\
  fst (fetch_by_id 1 two_capabilities) = Ok (Some strategy) /\
  update_capability 1 None None two_capabilities = (Ok (Some strategy), two_capabilities).
Proof.
  assert (H : fst (fetch_by_id 1 two_capabilities) = Ok (Some strategy)) by reflexivity.
  split; [exact (proj1 two_capabilities_well_keyed)|]. split; [exact H|].
  exact (update_without_fields_is_identity 1 two_capabilities strategy
           (proj1 two_capabilities_well_keyed) H).
Defined.

Lemma delete_run i db :
  delete_capability i db =
  (Ok (existsb (has_id i) (rows db)),
   {| rows := List.filter (fun c => negb (has_id i c)) (rows db); next_id := next_id db |}).
Proof.
  unfold delete_capability, bind, filter_delete, ret.
  by rewrite length_filter_positive.
Qed.




(** X19: a soft-deleted record is invisible to [fetch_by_id] and cannot be
    updated, yet [delete_capability] still finds it: it returns [True] and
    removes the row. *)
Theorem soft_deleted_is_still_deletable i db c t :
  NoDup (ids db) ->
  In c (rows db) -> id c = i -> deleted_at c = Some t ->
  fst (fetch_by_id i db) = Ok None /\
  (forall name_ description_, update_capability i name_ description_ db = (Ok None, db)) /\
  fst (delete_capability i db) = Ok true /\
  ~ In c (rows (snd (delete_capability i db))).
Proof.
  intros Hnd Hin Hid Hdel.
  assert (Hnone : fst (fetch_by_id i db) = Ok None).
  { rewrite (fetch_by_id_well_keyed _ _ Hnd). cbn [fst]. f_equal.
    destruct (live_row i db) as [c'|] eqn:Hrow; [|done].
    destruct (live_row_spec _ _ _ Hrow) as (Hin' & Hid' & Hlive').
    assert (c' = c); [|congruence].
    clear Hrow. unfold ids in Hnd. revert Hnd Hin Hin'. generalize (rows db).
    induction l as [|r l IH]; [intros _ []|]. cbn [List.map].
    intros Hnd%NoDup_cons. destruct Hnd as [Hnotin Hnd].
    rewrite list_elem_of_In in Hnotin.
    intros [->|H1] [->|H2]; [done| | |by apply IH].
    - destruct Hnotin. rewrite Hid, <- Hid'. by apply List.in_map.
    - destruct Hnotin. rewrite Hid', <- Hid. by apply List.in_map. }
  split; [done|]. split.
  - intros n d. by apply update_unknown.
  - split.
    + rewrite delete_run. cbn [fst]. f_equal. apply existsb_exists.
      exists c. split; [done|by apply has_id_eq].
    + intros H. by apply delete_removes_rows in H.
Qed.

Lemma soft_deleted_is_still_deletable_witness :
  NoDup (ids two_capabilities) /\
  In archived (rows two_capabilities) /\ id archived = 2%Z /\
  deleted_at archived = Some 1700000000%Z /\
  fst (fetch_by_id 2 two_capabilities) = Ok None /\
  (forall name_ description_,
     update_capability 2 name_ description_ two_capabilities = (Ok None, two_capabilities)) /\
  fst (delete_capability 2 two_capabilities) = Ok true /\
  ~ In archived (rows (snd (delete_capability 2 two_capabilities))).
Proof.
  assert (H1 : In archived (rows two_capabilities)) by (right; by left).
  assert (H2 : id archived = 2%Z) by reflexivity.
  assert (H3 : deleted_at archived = Some 1700000000%Z) by reflexivity.
  split; [exact (proj1 two_capabilities_well_keyed)|].
  repeat (split; [assumption|]).
  exact (soft_deleted_is_still_deletable 2 two_capabilities archived _
           (proj1 two_capabilities_well_keyed) H1 H2 H3).
Defined.

Lemma filter_filter_comm {A} (p q : A -> bool) (l : list A) :
  List.filter p (List.filter q l) = List.filter q (List.filter p l).
Proof.
  induction l as [|a l IH]; [reflexivity|]. cbn.
  destruct (p a) eqn:Hp, (q a) eqn:Hq; cbn; rewrite ?Hp, ?Hq, IH; reflexivity.
Qed.

(** X20: after [delete_capability] the listing of [fetch_all_capabilities]
    is the former listing without the records of that id, the others in
    their order; unique keys and the key counter are kept. *)
Theorem delete_then_fetch_all i db :
  let db' := snd (delete_capability i db) in
  fst (fetch_all_capabilities db') =
    Ok (List.filter (fun c => negb (id c =? i)%Z) (List.filter live (rows db))) /\
  next_id db' = next_id db /\
  (well_keyed db -> well_keyed db').
Proof.
  cbn zeta. rewrite delete_run. cbn [snd]. split; [|split; [done|]].
  - unfold fetch_all_capabilities, gets; cbn [fst rows]. f_equal.
    apply filter_filter_comm.
  - intros [Hnd Hlt]. unfold well_keyed, ids in *; cbn [rows next_id].
    revert Hnd Hlt. generalize (rows db) as l.
    induction l as [|c l IH]; [done|]. cbn [List.map List.filter].
    intros Hnd%NoDup_cons Hlt%Forall_cons. destruct Hnd as [Hnotin Hnd], Hlt as [Hc Hlt].
    destruct (IH Hnd Hlt) as [IH1 IH2].
    destruct (negb (has_id i c)); [|done]. cbn [List.map]. split.
    + apply NoDup_cons. split; [|done]. rewrite list_elem_of_In in *.
      intros H. apply Hnotin. apply List.in_map_iff in H as (r & Hr & Hin).
      apply List.filter_In in Hin as [Hin _]. apply List.in_map_iff. by exists r.
    + by apply Forall_cons.
Qed.

Lemma delete_then_fetch_all_witness :
  well_keyed two_capabilities /\
  fst (fetch_all_capabilities (snd (delete_capability 2 two_capabilities))) = Ok [strategy] /\
  well_keyed (snd (delete_capability 2 two_capabilities)).
Proof.
  destruct (delete_then_fetch_all 2 two_capabilities) as (Hall & _ & Hwk).
  split; [exact two_capabilities_well_keyed|].
  split; [exact Hall|exact (Hwk two_capabilities_well_keyed)].
Defined.

Lemma create_well_keyed name_ description_ db :
  well_keyed db -> well_keyed (snd (create_capability name_ description_ db)).
Proof.
  intros [Hnd Hlt]. unfold well_keyed, ids in *. cbn [create_capability bind
    Capability_create ret snd rows next_id]. rewrite List.map_app. cbn [List.map id].
  split.
  - apply NoDup_app. split; [done|]. split; [|apply NoDup_singleton].
    intros x Hx Hx'. apply list_elem_of_singleton in Hx'. subst x.
    rewrite Forall_forall in Hlt. specialize (Hlt _ Hx). lia.
  - apply Forall_app. split; [|repeat constructor; lia].
    eapply Forall_impl; [exact Hlt|]. cbn. intros. lia.
Qed.

(** X21: with unique keys below the counter, [create_capability] returns a
    live record with a key that no stored row has, a following
    [fetch_by_id] of that key returns the record, [fetch_all_capabilities]
    lists it after the former listing, and the keys stay unique. *)
Theorem create_then_fetch_by_id name_ description_ db :
  well_keyed db ->
  exists cap db',
    create_capability name_ description_ db = (Ok cap, db') /\
    name cap = name_ /\ description cap = description_ /\ deleted_at cap = None /\
    ~ In (id cap) (ids db) /\
    fst (fetch_by_id (id cap) db') = Ok (Some cap) /\
    fst (fetch_all_capabilities db') = Ok (List.filter live (rows db) ++ [cap])%list /\
    well_keyed db'.
Proof.
  intros Hwk. pose proof (create_well_keyed name_ description_ db Hwk) as Hwk'.
  destruct Hwk as [Hnd Hlt]. eexists _, _. split; [reflexivity|].
  cbn [name description deleted_at id]. repeat (split; [reflexivity|]).
  split; [|split; [|split; [|exact Hwk']]].
  - intros Hin. apply list_elem_of_In in Hin.
    rewrite Forall_forall in Hlt. specialize (Hlt _ Hin). lia.
  - apply (proj2 (fetch_by_id_iff _ _ (proj1 Hwk'))).
    cbn [rows]. split; [apply List.in_or_app; right; by left|done].
  - unfold fetch_all_capabilities, gets; cbn [fst rows]. by rewrite List.filter_app.
Qed.

Lemma create_then_fetch_by_id_witness :
  well_keyed two_capabilities /\
  exists cap db',
    create_capability "Program Design" "Origination" two_capabilities = (Ok cap, db') /\
    id cap = 3%Z /\
    fst (fetch_by_id 3 db') = Ok (Some cap) /\
    fst (fetch_all_capabilities db') = Ok [strategy; cap].
Proof.
  split; [exact two_capabilities_well_keyed|].
  destruct (create_then_fetch_by_id "Program Design" "Origination" two_capabilities
              two_capabilities_well_keyed)
    as (cap & db' & Hrun & _ & _ & _ & _ & Hfetch & Hall & _).
  exists cap, db'. split; [exact Hrun|]. injection Hrun as <- <-.
  split; [reflexivity|]. split; [exact Hfetch|exact Hall].
Defined.

(** X22: a mutation of one record leaves every other id as it was: after
    [create_capability], [update_capability] or [delete_capability],
    [fetch_by_id] of any other id returns what it returned before. *)
Theorem mutations_leave_other_records j db :
  (forall name_ description_, j <> next_id db ->
     fst (fetch_by_id j (snd (create_capability name_ description_ db))) =
     fst (fetch_by_id j db)) /\
  (forall i name_ description_, i <> j ->
     fst (fetch_by_id j (snd (update_capability i name_ description_ db))) =
     fst (fetch_by_id j db)) /\
  (forall i, i <> j ->
     fst (fetch_by_id j (snd (delete_capability i db))) = fst (fetch_by_id j db)).
Proof.
  split; [|split].
  - intros n d Hne. apply fetch_by_id_same_rows. cbn [create_capability bind
      Capability_create ret snd rows]. rewrite List.filter_app. cbn [List.filter].
    assert (has_id j {| id := next_id db; name := n; description := d;
                        deleted_at := None; processes := [] |} = false) as ->
      by (by apply has_id_neq). cbn. by rewrite app_nil_r.
  - intros i n d Hne. rewrite update_run.
    pose proof (fetch_by_id_reads_only i db) as Hs.
    destruct (fetch_by_id i db) as [[[obj|]|e] db1] eqn:Hf; cbn [snd] in *; subst db1;
      [|reflexivity..].
    apply fetch_by_id_same_rows. cbn [rows].
    assert (Hid : id obj = i).
    { apply (fetch_by_id_sound i db obj). by rewrite Hf. }
    apply (save_other_rows (updated obj n d)). cbn [updated id]. congruence.
  - intros i Hne. apply fetch_by_id_same_rows. rewrite delete_run. cbn [snd rows].
    induction (rows db) as [|c l IH]; [reflexivity|]. cbn.
    destruct (has_id i c) eqn:Hi; cbn.
    + assert (has_id j c = false) as ->.
      { apply has_id_neq. apply has_id_eq in Hi. congruence. }
      exact IH.
    + by rewrite IH.
Qed.

Lemma mutations_leave_other_records_witness :
  fst (fetch_by_id 1 (snd (create_capability "Program Design" "Origination" two_capabilities)))
    = Ok (Some strategy) /\
  fst (fetch_by_id 1 (snd (update_capability 2 (Some "x") None two_capabilities)))
    = Ok (Some strategy) /\
  fst (fetch_by_id 1 (snd (delete_capability 2 two_capabilities))) = Ok (Some strategy).
Proof.
  destruct (mutations_leave_other_records 1 two_capabilities) as (H1 & H2 & H3).
  split; [|split].
  - rewrite H1; [reflexivity|discriminate].
  - rewrite H2; [reflexivity|discriminate].
  - rewrite H3; [reflexivity|discriminate].
Defined.

End CapabilityRepositoryProps.
